(** * socket-io-azure-service-bus-emitter: message construction and addressing

    A shallow embedding of the two emitter sources of the repository,

    - [src/lib/index.ts]: the subject-routed dialect (requests are JSON
      strings, the Service Bus [subject] carries the channel), and
    - [src/unnamed/part_003]: the property-routed dialect (every message is a
      [ClusterMessage] passed through the parser, the namespace travels in
      [applicationProperties]),

    together with the builder code ([BroadcastOperator.to], [in], [except],
    [compress], [volatile]) that the two files share verbatim.

    JavaScript [Set]s and flag objects are mutable heap objects: they live in
    a store and builders hold references to them, so that what a refinement
    call allocates, copies and mutates is explicit. *)

From Stdlib Require Import ZArith Ascii Permutation.
From stdpp Require Import base list strings pretty.

Open Scope string_scope.
Open Scope list_scope.
Set Warnings "-register-all".

(** ** JavaScript values *)

(** The values that travel through the emitter ([any] in the source).  Numbers
    are restricted to integers (of a magnitude that JavaScript prints in plain
    decimal) and strings to sequences of 8-bit code units; functions and
    symbols are opaque and carry an identity only. *)
Inductive JsValue : Type :=
| JUndefined
| JNull
| JBool (b : bool)
| JNum (n : Z)
| JStr (s : string)
| JSym (id : nat)
| JFun (id : nat)
| JArr (items : list JsValue)
| JObj (props : list (string * JsValue)).

(** [typeof v] *)
Definition typeof (v : JsValue) : string :=
  match v with
  | JUndefined => "undefined"
  | JNull => "object"
  | JBool _ => "boolean"
  | JNum _ => "number"
  | JStr _ => "string"
  | JSym _ => "symbol"
  | JFun _ => "function"
  | JArr _ => "object"
  | JObj _ => "object"
  end.

(** [obj[k]] on an object value: [None] when the property is absent. *)
Fixpoint get_prop (k : string) (props : list (string * JsValue)) : option JsValue :=
  match props with
  | [] => None
  | (k', v) :: rest => if String.eqb k k' then Some v else get_prop k rest
  end.

Definition field (k : string) (v : JsValue) : option JsValue :=
  match v with
  | JObj props => get_prop k props
  | _ => None
  end.

(** [arr[i]] on an array value. *)
Definition item (i : nat) (v : JsValue) : option JsValue :=
  match v with
  | JArr items => items !! i
  | _ => None
  end.

(** One step into a value: a property name or an array index. *)
Inductive Step : Type :=
| Key (k : string)
| Index (i : nat).

(** [v.k1[i2].k3...] *)
Fixpoint get_in (v : JsValue) (path : list Step) : option JsValue :=
  match path with
  | [] => Some v
  | Key k :: rest =>
      match field k v with
      | Some v' => get_in v' rest
      | None => None
      end
  | Index i :: rest =>
      match item i v with
      | Some v' => get_in v' rest
      | None => None
      end
  end.

(** ** [JSON.stringify] *)

Definition dquote : string := String (Ascii.ascii_of_nat 34) EmptyString.
Definition backslash : string := String (Ascii.ascii_of_nat 92) EmptyString.

Definition hex_digit (n : nat) : string :=
  match n with
  | 0 => "0" | 1 => "1" | 2 => "2" | 3 => "3" | 4 => "4" | 5 => "5" | 6 => "6"
  | 7 => "7" | 8 => "8" | 9 => "9" | 10 => "a" | 11 => "b" | 12 => "c"
  | 13 => "d" | 14 => "e" | _ => "f"
  end.

(** The JSON escape of one code unit (ECMA-262, QuoteJSONString). *)
Definition json_escape (c : Ascii.ascii) : string :=
  let n := Ascii.nat_of_ascii c in
  if Nat.eqb n 34 then backslash +:+ dquote
  else if Nat.eqb n 92 then backslash +:+ backslash
  else if Nat.eqb n 8 then backslash +:+ "b"
  else if Nat.eqb n 9 then backslash +:+ "t"
  else if Nat.eqb n 10 then backslash +:+ "n"
  else if Nat.eqb n 12 then backslash +:+ "f"
  else if Nat.eqb n 13 then backslash +:+ "r"
  else if Nat.ltb n 32 then backslash +:+ "u00" +:+ hex_digit (n / 16) +:+ hex_digit (n mod 16)
  else String c EmptyString.

Fixpoint json_escape_all (s : string) : string :=
  match s with
  | EmptyString => EmptyString
  | String c rest => json_escape c +:+ json_escape_all rest
  end.

Definition json_quote (s : string) : string :=
  dquote +:+ json_escape_all s +:+ dquote.

Fixpoint join_comma (parts : list string) : string :=
  match parts with
  | [] => EmptyString
  | [p] => p
  | p :: rest => p +:+ "," +:+ join_comma rest
  end.

(** SerializeJSONProperty: [None] stands for [undefined] (the value is left
    out of an object and printed as [null] inside an array).  The values are
    the plain data of [JsValue]: numbers are integers, printed in decimal,
    and no object carries a [toJSON] method. *)
Fixpoint serialize (v : JsValue) : option string :=
  match v with
  | JUndefined => None
  | JSym _ => None
  | JFun _ => None
  | JNull => Some "null"
  | JBool true => Some "true"
  | JBool false => Some "false"
  | JNum n => Some (pretty n)
  | JStr s => Some (json_quote s)
  | JArr items =>
      let fix elems (l : list JsValue) : list string :=
        match l with
        | [] => []
        | x :: rest =>
            match serialize x with
            | Some s => s
            | None => "null"
            end :: elems rest
        end in
      Some ("[" +:+ join_comma (elems items) +:+ "]")
  | JObj props =>
      let fix members (l : list (string * JsValue)) : list string :=
        match l with
        | [] => []
        | (k, x) :: rest =>
            match serialize x with
            | Some s => (json_quote k +:+ ":" +:+ s) :: members rest
            | None => members rest
            end
        end in
      Some ("{" +:+ join_comma (members props) +:+ "}")
  end.

(** [JSON.stringify(v)] as a JavaScript value. *)
Definition JSON_stringify (v : JsValue) : JsValue :=
  match serialize v with
  | Some s => JStr s
  | None => JUndefined
  end.

(** ** The store and the transport *)

(** References are indices into the store. *)
Abbreviation loc := nat.

(** [sets]: the [Set<string>] objects, in insertion order of their elements;
    [objs]: the plain objects (own properties in insertion order);
    [sent]: the argument of every [sbSender.sendMessages] call so far. *)
Record World : Type := mkWorld {
  sets : list (list string);
  objs : list (list (string * JsValue));
  sent : list JsValue
}.

Definition empty_world : World := mkWorld [] [] [].

(** [new Error(message)] *)
Inductive JsError : Type :=
| Error (message : string).

(** How a call completes. [Stuck] is a read through a dangling reference,
    which no JavaScript program can perform. *)
Inductive Completion (A : Type) : Type :=
| Normal (a : A)
| Throw (e : JsError)
| Stuck.

Arguments Normal {A} a.
Arguments Throw {A} e.
Arguments Stuck {A}.

Definition Run (A : Type) : Type := World -> Completion A * World.

Definition ret {A} (a : A) : Run A := fun w => (Normal a, w).

Definition bind {A B} (m : Run A) (k : A -> Run B) : Run B :=
  fun w =>
    match m w with
    | (Normal a, w') => k a w'
    | (Throw e, w') => (Throw e, w')
    | (Stuck, w') => (Stuck, w')
    end.

Definition throw {A} (e : JsError) : Run A := fun w => (Throw e, w).

Declare Scope run_scope.
Delimit Scope run_scope with run.
Notation "x <- m ;; k" := (bind m (fun x => k))
  (at level 62, m at next level, right associativity) : run_scope.
Notation "m ;;; k" := (bind m (fun _ => k))
  (at level 62, right associativity) : run_scope.
Open Scope run_scope.

(** [l.forEach(f)] *)
Fixpoint forEach {A} (l : list A) (f : A -> Run unit) : Run unit :=
  match l with
  | [] => ret tt
  | x :: rest => f x ;;; forEach rest f
  end.

(** *** [Set<string>] *)

(** The elements after [set.add(r)]: a new element goes last. *)
Definition add_elem (elems : list string) (r : string) : list string :=
  if bool_decide (r ∈ elems) then elems else elems ++ [r].

Definition Set_read (s : loc) : Run (list string) :=
  fun w =>
    match sets w !! s with
    | Some elems => (Normal elems, w)
    | None => (Stuck, w)
    end.

Definition Set_alloc (elems : list string) : Run loc :=
  fun w => (Normal (length (sets w)), mkWorld (sets w ++ [elems]) (objs w) (sent w)).

Definition Set_write (s : loc) (elems : list string) : Run unit :=
  fun w => (Normal tt, mkWorld (<[s := elems]> (sets w)) (objs w) (sent w)).

(** [new Set<string>()] *)
Definition Set_new : Run loc := Set_alloc [].

(** [new Set(src)] *)
Definition Set_copy (src : loc) : Run loc :=
  elems <- Set_read src ;; Set_alloc elems.

(** [s.add(r)] *)
Definition Set_add (s : loc) (r : string) : Run unit :=
  elems <- Set_read s ;; Set_write s (add_elem elems r).

(** [[...s]] *)
Definition Set_spread (s : loc) : Run (list string) := Set_read s.

(** [s.size] *)
Definition Set_size (s : loc) : Run nat :=
  elems <- Set_read s ;; ret (length elems).

(** [s.keys().next().value] *)
Definition Set_first (s : loc) : Run JsValue :=
  elems <- Set_read s ;;
  ret (match elems with
       | [] => JUndefined
       | r :: _ => JStr r
       end).

(** *** Plain objects *)

(** [obj[k] = v] on the property list: an existing key keeps its place. *)
Fixpoint set_prop (props : list (string * JsValue)) (k : string) (v : JsValue)
  : list (string * JsValue) :=
  match props with
  | [] => [(k, v)]
  | (k', v') :: rest =>
      if String.eqb k k' then (k', v) :: rest else (k', v') :: set_prop rest k v
  end.

Definition Obj_read (o : loc) : Run (list (string * JsValue)) :=
  fun w =>
    match objs w !! o with
    | Some props => (Normal props, w)
    | None => (Stuck, w)
    end.

(** [{}] *)
Definition Obj_new : Run loc :=
  fun w => (Normal (length (objs w)), mkWorld (sets w) (objs w ++ [[]]) (sent w)).

Definition Obj_set (o : loc) (k : string) (v : JsValue) : Run unit :=
  props <- Obj_read o ;;
  fun w => (Normal tt, mkWorld (sets w) (<[o := set_prop props k v]> (objs w)) (sent w)).

(** One source of [Object.assign(target, ...)]: its own properties are
    assigned to [target] in order. *)
Definition Obj_assign (target : loc) (source : list (string * JsValue)) : Run unit :=
  forEach source (fun kv => Obj_set target (fst kv) (snd kv)).

(** *** The Service Bus sender *)

(** [sbSender.sendMessages(m)], as the test suites' sender: the message is
    recorded.  The call happens synchronously inside the [async]
    [sendMessage]; the promise it returns is dropped by every caller. *)
Definition sendMessages (m : JsValue) : Run unit :=
  fun w => (Normal tt, mkWorld (sets w) (objs w) (sent w ++ [m])).

(** ** The builder, common to both sources *)

Definition UID : string := "emitter".

(** [interface Parser { encode: (msg: any) => any }] *)
Record Parser : Type := mkParser { encode : JsValue -> JsValue }.

(** [interface EmitterOptions]; [None] is an absent property. *)
Module EmitterOptions.
Record t : Type := mk { key : option string; parser : option Parser }.
End EmitterOptions.

(** [interface BroadcastOptions] *)
Module BroadcastOptions.
Record t : Type := mk {
  nsp : string;
  broadcastChannel : string;
  requestChannel : string;
  parser : Parser
}.
End BroadcastOptions.

(** The private fields of [class BroadcastOperator].  [rooms] and
    [exceptRooms] refer to [Set<string>] objects and [flags] to a
    [BroadcastFlags] object of the store.  There is one sender, the [sent]
    log of the world, so [sbSender] is left out. *)
Record BroadcastOperator : Type := mkOperator {
  broadcastOptions : BroadcastOptions.t;
  rooms : loc;
  exceptRooms : loc;
  flags : loc
}.

(** [room: string | string[]] *)
Inductive RoomArg : Type :=
| Room (r : string)
| Rooms (rs : list string).

(** [Array.isArray(room) ? room : [room]] *)
Definition listify (room : RoomArg) : list string :=
  match room with
  | Room r => [r]
  | Rooms rs => rs
  end.

(** [new BroadcastOperator(sbSender, broadcastOptions)]: the three default
    arguments are evaluated left to right. *)
Definition new_BroadcastOperator (bo : BroadcastOptions.t) : Run BroadcastOperator :=
  rooms <- Set_new ;;
  exceptRooms <- Set_new ;;
  flags <- Obj_new ;;
  ret (mkOperator bo rooms exceptRooms flags).

(** [BroadcastOperator.to] *)
Definition to (this : BroadcastOperator) (room : RoomArg) : Run BroadcastOperator :=
  rooms <- Set_copy (rooms this) ;;
  forEach (listify room) (fun r => Set_add rooms r) ;;;
  ret (mkOperator (broadcastOptions this) rooms (exceptRooms this) (flags this)).

(** [BroadcastOperator.in] *)
Definition in_ (this : BroadcastOperator) (room : RoomArg) : Run BroadcastOperator :=
  to this room.

(** [BroadcastOperator.except] *)
Definition except (this : BroadcastOperator) (room : RoomArg) : Run BroadcastOperator :=
  exceptRooms <- Set_copy (exceptRooms this) ;;
  forEach (listify room) (fun r => Set_add exceptRooms r) ;;;
  ret (mkOperator (broadcastOptions this) (rooms this) exceptRooms (flags this)).

(** [Object.assign({}, this.flags, extra)].  The second source, the
    literal [{ compress }] or [{ volatile: true }], is read once by
    [Object.assign] and referred to by nothing afterwards: it is passed as
    its property list and is not held in the store. *)
Definition assign_flags (this : BroadcastOperator) (extra : list (string * JsValue)) : Run loc :=
  target <- Obj_new ;;
  own <- Obj_read (flags this) ;;
  Obj_assign target own ;;;
  Obj_assign target extra ;;;
  ret target.

(** [BroadcastOperator.compress] *)
Definition compress (this : BroadcastOperator) (compress : bool) : Run BroadcastOperator :=
  flags <- assign_flags this [("compress", JBool compress)] ;;
  ret (mkOperator (broadcastOptions this) (rooms this) (exceptRooms this) flags).

(** [get BroadcastOperator.volatile] *)
Definition volatile (this : BroadcastOperator) : Run BroadcastOperator :=
  flags <- assign_flags this [("volatile", JBool true)] ;;
  ret (mkOperator (broadcastOptions this) (rooms this) (exceptRooms this) flags).

(** [RESERVED_EVENTS] *)
Definition RESERVED_EVENTS : list string :=
  ["connect"; "connect_error"; "disconnect"; "disconnecting"; "newListener";
   "removeListener"].

(** [RESERVED_EVENTS.has(ev)]: only a string can be a member. *)
Definition RESERVED_EVENTS_has (ev : JsValue) : bool :=
  match ev with
  | JStr s => bool_decide (s ∈ RESERVED_EVENTS)
  | _ => false
  end.

(** [String(ev)] for an event name (a string or a symbol). *)
Definition String_of (ev : JsValue) : string :=
  match ev with
  | JStr s => s
  | JSym id => "Symbol(" +:+ pretty id +:+ ")"
  | _ => EmptyString
  end.

(** The [Error] of [BroadcastOperator.emit]. *)
Definition reserved_event_error (ev : JsValue) : JsError :=
  Error (dquote +:+ String_of ev +:+ dquote +:+ " is a reserved event name").

(** The [Error] of [Emitter.serverSideEmit]. *)
Definition ack_error : JsError := Error "Acknowledgements are not supported".

(** *** [class Emitter] *)

(** [this.opts] after [Object.assign({ key, parser }, opts)]: both
    properties are present. *)
Record MergedOptions : Type := mkMerged { key : string; parser : Parser }.

Record Emitter : Type := mkEmitter {
  opts : MergedOptions;
  nsp : string;
  emitterBroadcastOptions : BroadcastOptions.t
}.

Section WithDefaultParser.

(** [{ encode: msgpackEncode }]: the MessagePack encoder each source imports
    ([notepack.io] in one, [@msgpack/msgpack] in the other). *)
Variable msgpackEncode : JsValue -> JsValue.

(** [Object.assign({ key: "socket.io", parser: { encode: msgpackEncode } }, opts)] *)
Definition assign_defaults (opts : option EmitterOptions.t) : MergedOptions :=
  let defaults := mkMerged "socket.io" (mkParser msgpackEncode) in
  match opts with
  | None => defaults
  | Some o =>
      mkMerged
        (match EmitterOptions.key o with Some k => k | None => key defaults end)
        (match EmitterOptions.parser o with Some p => p | None => parser defaults end)
  end.

(** [new Emitter(sbSender, opts, nsp)]; an absent [nsp] is ["/"]. *)
Definition new_Emitter (opts : option EmitterOptions.t) (nsp : option string) : Emitter :=
  let nsp := match nsp with Some n => n | None => "/" end in
  let opts := assign_defaults opts in
  mkEmitter opts nsp
    (BroadcastOptions.mk nsp
       (key opts +:+ "#" +:+ nsp +:+ "#")
       (key opts +:+ "-request#" +:+ nsp +:+ "#")
       (parser opts)).

(** [this.opts] passed on as the [opts] argument of a constructor. *)
Definition as_options (m : MergedOptions) : EmitterOptions.t :=
  EmitterOptions.mk (Some (key m)) (Some (parser m)).

(** [(nsp[0] !== "/" ? "/" : "") + nsp] *)
Definition normalize_nsp (nsp : string) : string :=
  match nsp with
  | String c _ => if Ascii.eqb c "/"%char then nsp else "/" +:+ nsp
  | EmptyString => "/" +:+ nsp
  end.

(** [Emitter.of] *)
Definition Emitter_of (this : Emitter) (nsp : string) : Emitter :=
  new_Emitter (Some (as_options (opts this))) (Some (normalize_nsp nsp)).

End WithDefaultParser.

(** [Emitter.to], [in], [except], [volatile], [compress]: each starts from a
    fresh [BroadcastOperator]. *)
Definition Emitter_to (this : Emitter) (room : RoomArg) : Run BroadcastOperator :=
  op <- new_BroadcastOperator (emitterBroadcastOptions this) ;; to op room.

Definition Emitter_in (this : Emitter) (room : RoomArg) : Run BroadcastOperator :=
  op <- new_BroadcastOperator (emitterBroadcastOptions this) ;; in_ op room.

Definition Emitter_except (this : Emitter) (room : RoomArg) : Run BroadcastOperator :=
  op <- new_BroadcastOperator (emitterBroadcastOptions this) ;; except op room.

Definition Emitter_volatile (this : Emitter) : Run BroadcastOperator :=
  op <- new_BroadcastOperator (emitterBroadcastOptions this) ;; volatile op.

Definition Emitter_compress (this : Emitter) (c : bool) : Run BroadcastOperator :=
  op <- new_BroadcastOperator (emitterBroadcastOptions this) ;; compress op c.

(** [[...set]] as an array value. *)
Definition string_array (l : list string) : JsValue := JArr (JStr <$> l).

(** [v + s] for the values a [Set<string>] iterator yields. *)
Definition value_plus (v : JsValue) (s : string) : string :=
  match v with
  | JStr r => r +:+ s
  | _ => "undefined" +:+ s
  end.

(** [PacketType.EVENT] of [socket.io-parser] (the test suites expect the
    number 2 in [packet.type]). *)
Definition PacketType_EVENT : Z := 2.

(** [args[args.length - 1]]: [undefined] for an empty list. *)
Definition last_arg (args : list JsValue) : JsValue := List.last args JUndefined.

(** [typeof args[args.length - 1] === "function"] *)
Definition withAck (args : list JsValue) : bool :=
  String.eqb (typeof (last_arg args)) "function".

(** The terminal calls of a builder. *)
Inductive Terminal : Type :=
| Emit (ev : JsValue) (args : list JsValue)
| SocketsJoin (target : RoomArg)
| SocketsLeave (target : RoomArg)
| DisconnectSockets (close : option bool).

(** ** The subject-routed dialect: [src/lib/index.ts] *)

Module SubjectRouted.

(** [enum RequestType] *)
Inductive RequestType : Type :=
| SOCKETS
| ALL_ROOMS
| REMOTE_JOIN
| REMOTE_LEAVE
| REMOTE_DISCONNECT
| REMOTE_FETCH
| SERVER_SIDE_EMIT.

Definition RequestType_value (t : RequestType) : Z :=
  match t with
  | SOCKETS => 0
  | ALL_ROOMS => 1
  | REMOTE_JOIN => 2
  | REMOTE_LEAVE => 3
  | REMOTE_DISCONNECT => 4
  | REMOTE_FETCH => 5
  | SERVER_SIDE_EMIT => 6
  end.

(** The argument of [sbSender.sendMessages] in [sendMessage]. *)
Definition service_bus_message (channel : string) (body : JsValue) : JsValue :=
  JObj [("body", body);
        ("contentType", JStr "application/octet-stream");
        ("subject", JStr channel)].

(** [BroadcastOperator.sendMessage] and [Emitter.sendMessage] *)
Definition sendMessage (channel : string) (body : JsValue) : Run unit :=
  sendMessages (service_bus_message channel body).

(** [[UID, packet, opts]] in [emit] *)
Definition broadcast_message (nsp : string) (ev : JsValue) (args : list JsValue)
    (rooms : list string) (flags : list (string * JsValue)) (except : list string)
  : JsValue :=
  let data := ev :: args in
  let packet :=
    JObj [("type", JNum PacketType_EVENT); ("data", JArr data); ("nsp", JStr nsp)] in
  let opts :=
    JObj [("rooms", string_array rooms); ("flags", JObj flags);
          ("except", string_array except)] in
  JArr [JStr UID; packet; opts].

(** [BroadcastOperator.emit] *)
Definition emit (this : BroadcastOperator) (ev : JsValue) (args : list JsValue)
  : Run bool :=
  if RESERVED_EVENTS_has ev then throw (reserved_event_error ev)
  else
    let bo := broadcastOptions this in
    rooms_ <- Set_spread (rooms this) ;;
    flags_ <- Obj_read (flags this) ;;
    except_ <- Set_spread (exceptRooms this) ;;
    let msg :=
      encode (BroadcastOptions.parser bo)
        (broadcast_message (BroadcastOptions.nsp bo) ev args rooms_ flags_ except_) in
    let channel := BroadcastOptions.broadcastChannel bo in
    size <- Set_size (rooms this) ;;
    channel <- (if Nat.eqb size 1
                then first <- Set_first (rooms this) ;;
                     ret (channel +:+ value_plus first "#")
                else ret channel) ;;
    sendMessage channel msg ;;;
    ret true.

(** The object given to [JSON.stringify] in [socketsJoin] and
    [socketsLeave]. *)
Definition rooms_request (type : RequestType) (rooms except : list string)
    (target : RoomArg) : JsValue :=
  JObj [("type", JNum (RequestType_value type));
        ("opts", JObj [("rooms", string_array rooms); ("except", string_array except)]);
        ("rooms", string_array (listify target))].

(** [BroadcastOperator.socketsJoin] *)
Definition socketsJoin (this : BroadcastOperator) (target : RoomArg) : Run unit :=
  rooms_ <- Set_spread (rooms this) ;;
  except_ <- Set_spread (exceptRooms this) ;;
  let request := JSON_stringify (rooms_request REMOTE_JOIN rooms_ except_ target) in
  sendMessage (BroadcastOptions.requestChannel (broadcastOptions this)) request.

(** [BroadcastOperator.socketsLeave] *)
Definition socketsLeave (this : BroadcastOperator) (target : RoomArg) : Run unit :=
  rooms_ <- Set_spread (rooms this) ;;
  except_ <- Set_spread (exceptRooms this) ;;
  let request := JSON_stringify (rooms_request REMOTE_LEAVE rooms_ except_ target) in
  sendMessage (BroadcastOptions.requestChannel (broadcastOptions this)) request.

(** The object given to [JSON.stringify] in [disconnectSockets]. *)
Definition disconnect_request (rooms except : list string) (close : bool) : JsValue :=
  JObj [("type", JNum (RequestType_value REMOTE_DISCONNECT));
        ("opts", JObj [("rooms", string_array rooms); ("except", string_array except)]);
        ("close", JBool close)].

(** [BroadcastOperator.disconnectSockets]; an absent [close] is [false]. *)
Definition disconnectSockets (this : BroadcastOperator) (close : option bool) : Run unit :=
  let close := match close with Some c => c | None => false end in
  rooms_ <- Set_spread (rooms this) ;;
  except_ <- Set_spread (exceptRooms this) ;;
  let request := JSON_stringify (disconnect_request rooms_ except_ close) in
  sendMessage (BroadcastOptions.requestChannel (broadcastOptions this)) request.

(** The object given to [JSON.stringify] in [serverSideEmit]. *)
Definition server_side_emit_request (args : list JsValue) : JsValue :=
  JObj [("uid", JStr UID);
        ("type", JNum (RequestType_value SERVER_SIDE_EMIT));
        ("data", JArr args)].

(** [Emitter.serverSideEmit] *)
Definition serverSideEmit (this : Emitter) (args : list JsValue) : Run unit :=
  if withAck args then throw ack_error
  else
    let request := JSON_stringify (server_side_emit_request args) in
    sendMessage (BroadcastOptions.requestChannel (emitterBroadcastOptions this)) request.

(** [Emitter.emit], [socketsJoin], [socketsLeave], [disconnectSockets] *)
Definition Emitter_emit (this : Emitter) (ev : JsValue) (args : list JsValue) : Run bool :=
  op <- new_BroadcastOperator (emitterBroadcastOptions this) ;; emit op ev args.

Definition Emitter_socketsJoin (this : Emitter) (rooms : RoomArg) : Run unit :=
  op <- new_BroadcastOperator (emitterBroadcastOptions this) ;; socketsJoin op rooms.

Definition Emitter_socketsLeave (this : Emitter) (rooms : RoomArg) : Run unit :=
  op <- new_BroadcastOperator (emitterBroadcastOptions this) ;; socketsLeave op rooms.

Definition Emitter_disconnectSockets (this : Emitter) (close : option bool) : Run unit :=
  op <- new_BroadcastOperator (emitterBroadcastOptions this) ;; disconnectSockets op close.

(** A terminal call and the value it returns. *)
Definition call (op : BroadcastOperator) (t : Terminal) : Run JsValue :=
  match t with
  | Emit ev args => b <- emit op ev args ;; ret (JBool b)
  | SocketsJoin target => socketsJoin op target ;;; ret JUndefined
  | SocketsLeave target => socketsLeave op target ;;; ret JUndefined
  | DisconnectSockets close => disconnectSockets op close ;;; ret JUndefined
  end.

End SubjectRouted.

(** ** The property-routed dialect: [src/unnamed/part_003] *)

Module PropertyRouted.

(** The members of [enum MessageType] the emitter uses. *)
Inductive MessageKind : Type :=
| BROADCAST
| SOCKETS_JOIN
| SOCKETS_LEAVE
| DISCONNECT_SOCKETS
| SERVER_SIDE_EMIT.

(** [socket.io-adapter] numbers its [MessageType] members from
    [INITIAL_HEARTBEAT = 1]. *)
Definition socket_io_adapter_MessageType (k : MessageKind) : Z :=
  match k with
  | BROADCAST => 3
  | SOCKETS_JOIN => 4
  | SOCKETS_LEAVE => 5
  | DISCONNECT_SOCKETS => 6
  | SERVER_SIDE_EMIT => 9
  end.

(** The argument of [sbSender.sendMessages] in
    [BroadcastOperator.sendMessage]. *)
Definition operator_message (nsp : string) (body : JsValue) : JsValue :=
  JObj [("body", body);
        ("contentType", JStr "application/octet-stream");
        ("applicationProperties", JObj [("nsp", JStr nsp)])].

(** The argument of [sbSender.sendMessages] in [Emitter.sendMessage]. *)
Definition emitter_message (nsp : string) (body : JsValue) : JsValue :=
  JObj [("body", body);
        ("contentType", JStr "application/octet-stream");
        ("applicationProperties", JObj [("nsp", JStr nsp); ("uid", JStr UID)])].

(** [BroadcastOperator.sendMessage]: the channel is not used. *)
Definition sendMessage (this : BroadcastOperator) (channel : string) (body : JsValue)
  : Run unit :=
  sendMessages (operator_message (BroadcastOptions.nsp (broadcastOptions this)) body).

(** [Emitter.sendMessage]: the channel is not used. *)
Definition Emitter_sendMessage (this : Emitter) (channel : string) (body : JsValue)
  : Run unit :=
  sendMessages (emitter_message (nsp this) body).

Section WithMessageType.

(** The imported [MessageType] enumeration of [socket.io-adapter]. *)
Variable MessageType : MessageKind -> Z.

(** [clusterMessage] in [emit] *)
Definition broadcast_message (nsp : string) (ev : JsValue) (args : list JsValue)
    (rooms : list string) (flags : list (string * JsValue)) (except : list string)
  : JsValue :=
  let data := ev :: args in
  JObj [("uid", JStr UID);
        ("type", JNum (MessageType BROADCAST));
        ("data",
         JObj [("packet",
                JObj [("type", JNum PacketType_EVENT); ("data", JArr data);
                      ("nsp", JStr nsp)]);
               ("opts",
                JObj [("rooms", string_array rooms); ("flags", JObj flags);
                      ("except", string_array except)])]);
        ("nsp", JStr nsp)].

(** [BroadcastOperator.emit] *)
Definition emit (this : BroadcastOperator) (ev : JsValue) (args : list JsValue)
  : Run bool :=
  if RESERVED_EVENTS_has ev then throw (reserved_event_error ev)
  else
    let bo := broadcastOptions this in
    rooms_ <- Set_spread (rooms this) ;;
    flags_ <- Obj_read (flags this) ;;
    except_ <- Set_spread (exceptRooms this) ;;
    let msg :=
      encode (BroadcastOptions.parser bo)
        (broadcast_message (BroadcastOptions.nsp bo) ev args rooms_ flags_ except_) in
    sendMessage this EmptyString msg ;;;
    ret true.

(** [clusterMessage] in [socketsJoin] and [socketsLeave] *)
Definition rooms_message (type : MessageKind) (nsp : string)
    (rooms except : list string) (flags : list (string * JsValue)) (target : RoomArg)
  : JsValue :=
  JObj [("uid", JStr UID);
        ("type", JNum (MessageType type));
        ("data",
         JObj [("opts",
                JObj [("rooms", string_array rooms); ("except", string_array except);
                      ("flags", JObj flags)]);
               ("rooms", string_array (listify target))]);
        ("nsp", JStr nsp)].

(** [BroadcastOperator.socketsJoin] *)
Definition socketsJoin (this : BroadcastOperator) (target : RoomArg) : Run unit :=
  let bo := broadcastOptions this in
  rooms_ <- Set_spread (rooms this) ;;
  except_ <- Set_spread (exceptRooms this) ;;
  flags_ <- Obj_read (flags this) ;;
  let msg :=
    encode (BroadcastOptions.parser bo)
      (rooms_message SOCKETS_JOIN (BroadcastOptions.nsp bo) rooms_ except_ flags_ target) in
  sendMessage this EmptyString msg.

(** [BroadcastOperator.socketsLeave] *)
Definition socketsLeave (this : BroadcastOperator) (target : RoomArg) : Run unit :=
  let bo := broadcastOptions this in
  rooms_ <- Set_spread (rooms this) ;;
  except_ <- Set_spread (exceptRooms this) ;;
  flags_ <- Obj_read (flags this) ;;
  let msg :=
    encode (BroadcastOptions.parser bo)
      (rooms_message SOCKETS_LEAVE (BroadcastOptions.nsp bo) rooms_ except_ flags_ target) in
  sendMessage this EmptyString msg.

(** [clusterMessage] in [disconnectSockets] *)
Definition disconnect_message (nsp : string) (rooms except : list string)
    (flags : list (string * JsValue)) (close : bool) : JsValue :=
  JObj [("uid", JStr UID);
        ("type", JNum (MessageType DISCONNECT_SOCKETS));
        ("data",
         JObj [("opts",
                JObj [("rooms", string_array rooms); ("except", string_array except);
                      ("flags", JObj flags)]);
               ("close", JBool close)]);
        ("nsp", JStr nsp)].

(** [BroadcastOperator.disconnectSockets]; an absent [close] is [false]. *)
Definition disconnectSockets (this : BroadcastOperator) (close : option bool) : Run unit :=
  let close := match close with Some c => c | None => false end in
  let bo := broadcastOptions this in
  rooms_ <- Set_spread (rooms this) ;;
  except_ <- Set_spread (exceptRooms this) ;;
  flags_ <- Obj_read (flags this) ;;
  let msg :=
    encode (BroadcastOptions.parser bo)
      (disconnect_message (BroadcastOptions.nsp bo) rooms_ except_ flags_ close) in
  sendMessage this EmptyString msg.

(** [clusterMessage] in [serverSideEmit] *)
Definition server_side_emit_message (nsp : string) (args : list JsValue) : JsValue :=
  JObj [("uid", JStr UID);
        ("type", JNum (MessageType SERVER_SIDE_EMIT));
        ("data", JObj [("packet", JArr args)]);
        ("nsp", JStr nsp)].

(** [Emitter.serverSideEmit] *)
Definition serverSideEmit (this : Emitter) (args : list JsValue) : Run unit :=
  if withAck args then throw ack_error
  else
    let msg :=
      encode (BroadcastOptions.parser (emitterBroadcastOptions this))
        (server_side_emit_message (nsp this) args) in
    Emitter_sendMessage this EmptyString msg.

(** [Emitter.emit], [socketsJoin], [socketsLeave], [disconnectSockets] *)
Definition Emitter_emit (this : Emitter) (ev : JsValue) (args : list JsValue) : Run bool :=
  op <- new_BroadcastOperator (emitterBroadcastOptions this) ;; emit op ev args.

Definition Emitter_socketsJoin (this : Emitter) (rooms : RoomArg) : Run unit :=
  op <- new_BroadcastOperator (emitterBroadcastOptions this) ;; socketsJoin op rooms.

Definition Emitter_socketsLeave (this : Emitter) (rooms : RoomArg) : Run unit :=
  op <- new_BroadcastOperator (emitterBroadcastOptions this) ;; socketsLeave op rooms.

Definition Emitter_disconnectSockets (this : Emitter) (close : option bool) : Run unit :=
  op <- new_BroadcastOperator (emitterBroadcastOptions this) ;; disconnectSockets op close.

(** A terminal call and the value it returns. *)
Definition call (op : BroadcastOperator) (t : Terminal) : Run JsValue :=
  match t with
  | Emit ev args => b <- emit op ev args ;; ret (JBool b)
  | SocketsJoin target => socketsJoin op target ;;; ret JUndefined
  | SocketsLeave target => socketsLeave op target ;;; ret JUndefined
  | DisconnectSockets close => disconnectSockets op close ;;; ret JUndefined
  end.

End WithMessageType.

End PropertyRouted.

(** ** What a builder holds *)

(** The elements of a set after [l.forEach((r) => set.add(r))]. *)
Definition add_all (elems : list string) (l : list string) : list string :=
  fold_left add_elem l elems.

(** The properties of [target] after one source of [Object.assign]. *)
Definition assign_all (props source : list (string * JsValue)) : list (string * JsValue) :=
  fold_left (fun p kv => set_prop p (fst kv) (snd kv)) source props.

(** The contents of the three store objects a builder refers to. *)
Record Criteria : Type := mkCriteria {
  c_rooms : list string;
  c_except : list string;
  c_flags : list (string * JsValue)
}.

(** In world [w] the builder [op] refers to live objects with contents [c]. *)
Definition holds (w : World) (op : BroadcastOperator) (c : Criteria) : Prop :=
  sets w !! rooms op = Some (c_rooms c) ∧
  sets w !! exceptRooms op = Some (c_except c) ∧
  objs w !! flags op = Some (c_flags c).

(** [w'] has every object of [w], unchanged, possibly more objects, and the
    same messages sent. *)
Definition extends (w w' : World) : Prop :=
  (∃ more, sets w' = (sets w ++ more)%list) ∧
  (∃ more, objs w' = (objs w ++ more)%list) ∧
  sent w' = sent w.

(** The refinement calls of a builder chain. *)
Inductive Refinement : Type :=
| To (room : RoomArg)
| In (room : RoomArg)
| Except (room : RoomArg)
| Compress (c : bool)
| Volatile.

Definition refine (op : BroadcastOperator) (r : Refinement) : Run BroadcastOperator :=
  match r with
  | To room => to op room
  | In room => in_ op room
  | Except room => except op room
  | Compress c => compress op c
  | Volatile => volatile op
  end.

(** [op.r1.r2...] *)
Fixpoint chain (op : BroadcastOperator) (rs : list Refinement) : Run BroadcastOperator :=
  match rs with
  | [] => ret op
  | r :: rest => op' <- refine op r ;; chain op' rest
  end.

(** [emitter.r1.r2...]: the first call is made on a fresh builder. *)
Definition Emitter_chain (e : Emitter) (rs : list Refinement) : Run BroadcastOperator :=
  op <- new_BroadcastOperator (emitterBroadcastOptions e) ;; chain op rs.

(** The flags object [Object.assign({}, flags, extra)] builds. *)
Definition assigned_flags (flags extra : list (string * JsValue)) : list (string * JsValue) :=
  assign_all (assign_all [] flags) extra.

(** The contents of the builder a refinement call returns. *)
Definition refined (c : Criteria) (r : Refinement) : Criteria :=
  match r with
  | To room => mkCriteria (add_all (c_rooms c) (listify room)) (c_except c) (c_flags c)
  | In room => mkCriteria (add_all (c_rooms c) (listify room)) (c_except c) (c_flags c)
  | Except room => mkCriteria (c_rooms c) (add_all (c_except c) (listify room)) (c_flags c)
  | Compress b =>
      mkCriteria (c_rooms c) (c_except c) (assigned_flags (c_flags c) [("compress", JBool b)])
  | Volatile =>
      mkCriteria (c_rooms c) (c_except c) (assigned_flags (c_flags c) [("volatile", JBool true)])
  end.

Definition no_criteria : Criteria := mkCriteria [] [] [].

(** The subject [BroadcastOperator.emit] of the subject-routed dialect sends
    on. *)
Definition broadcast_subject (bo : BroadcastOptions.t) (rooms : list string) : string :=
  match rooms with
  | [r] => BroadcastOptions.broadcastChannel bo +:+ r +:+ "#"
  | _ => BroadcastOptions.broadcastChannel bo
  end.

(** The same builder with another parser. *)
Definition with_parser (p : Parser) (op : BroadcastOperator) : BroadcastOperator :=
  let bo := broadcastOptions op in
  mkOperator
    (BroadcastOptions.mk (BroadcastOptions.nsp bo) (BroadcastOptions.broadcastChannel bo)
       (BroadcastOptions.requestChannel bo) p)
    (rooms op) (exceptRooms op) (flags op).



(** The messages a run has handed to the sender. *)
Definition sent_by {A} (r : Completion A * World) : list JsValue := sent (snd r).

(** The parser of the custom-parser test suite:
    [{ encode(msg) { return JSON.stringify(msg); } }]. *)
Definition json_parser : Parser := mkParser JSON_stringify.

(** A parser that wraps the message in a tagged array. *)
Definition tagging_parser : Parser := mkParser (fun msg => JArr [JStr "tagged"; msg]).

(** [hay.includes(needle)] *)
Definition includes (hay needle : string) : bool :=
  match String.index 0 needle hay with
  | Some _ => true
  | None => false
  end.

(** ** What a terminal call sends *)

(** [emit] with a reserved event name. *)
Definition reserved (t : Terminal) : bool :=
  match t with
  | Emit ev _ => RESERVED_EVENTS_has ev
  | _ => false
  end.

(** The value a terminal call returns. *)
Definition returned (t : Terminal) : JsValue :=
  match t with
  | Emit _ _ => JBool true
  | _ => JUndefined
  end.

Definition close_flag (close : option bool) : bool :=
  match close with
  | Some b => b
  | None => false
  end.

(** The message a terminal call of the subject-routed dialect builds from
    what the builder holds. *)
Definition Subject_message (bo : BroadcastOptions.t) (c : Criteria) (t : Terminal)
  : JsValue :=
  match t with
  | Emit ev args =>
      SubjectRouted.broadcast_message (BroadcastOptions.nsp bo) ev args
        (c_rooms c) (c_flags c) (c_except c)
  | SocketsJoin target =>
      SubjectRouted.rooms_request SubjectRouted.REMOTE_JOIN (c_rooms c) (c_except c) target
  | SocketsLeave target =>
      SubjectRouted.rooms_request SubjectRouted.REMOTE_LEAVE (c_rooms c) (c_except c) target
  | DisconnectSockets close =>
      SubjectRouted.disconnect_request (c_rooms c) (c_except c) (close_flag close)
  end.

(** How the subject-routed dialect serialises it: the parser for [emit],
    [JSON.stringify] for the requests. *)
Definition Subject_body (p : Parser) (t : Terminal) (msg : JsValue) : JsValue :=
  match t with
  | Emit _ _ => encode p msg
  | _ => JSON_stringify msg
  end.

(** The subject it is sent on. *)
Definition Subject_channel (bo : BroadcastOptions.t) (c : Criteria) (t : Terminal)
  : string :=
  match t with
  | Emit _ _ => broadcast_subject bo (c_rooms c)
  | _ => BroadcastOptions.requestChannel bo
  end.

(** The cluster message a terminal call of the property-routed dialect
    builds from what the builder holds. *)
Definition Property_message (MessageType : PropertyRouted.MessageKind -> Z)
    (bo : BroadcastOptions.t) (c : Criteria) (t : Terminal) : JsValue :=
  match t with
  | Emit ev args =>
      PropertyRouted.broadcast_message MessageType (BroadcastOptions.nsp bo) ev args
        (c_rooms c) (c_flags c) (c_except c)
  | SocketsJoin target =>
      PropertyRouted.rooms_message MessageType PropertyRouted.SOCKETS_JOIN
        (BroadcastOptions.nsp bo) (c_rooms c) (c_except c) (c_flags c) target
  | SocketsLeave target =>
      PropertyRouted.rooms_message MessageType PropertyRouted.SOCKETS_LEAVE
        (BroadcastOptions.nsp bo) (c_rooms c) (c_except c) (c_flags c) target
  | DisconnectSockets close =>
      PropertyRouted.disconnect_message MessageType (BroadcastOptions.nsp bo)
        (c_rooms c) (c_except c) (c_flags c) (close_flag close)
  end.

(** ** Calls beyond a single chain *)

(** [export default function emitter(sbSender, opts)] *)
Definition emitter (msgpackEncode : JsValue -> JsValue) (opts : option EmitterOptions.t)
  : Emitter :=
  new_Emitter msgpackEncode opts None.

(** A refinement call made on the emitter itself. *)
Definition Emitter_refine (e : Emitter) (r : Refinement) : Run BroadcastOperator :=
  match r with
  | To room => Emitter_to e room
  | In room => Emitter_in e room
  | Except room => Emitter_except e room
  | Compress c => Emitter_compress e c
  | Volatile => Emitter_volatile e
  end.

(** A terminal call made on the emitter itself, in each dialect. *)
Definition Subject_Emitter_call (e : Emitter) (t : Terminal) : Run JsValue :=
  match t with
  | Emit ev args => b <- SubjectRouted.Emitter_emit e ev args ;; ret (JBool b)
  | SocketsJoin target => SubjectRouted.Emitter_socketsJoin e target ;;; ret JUndefined
  | SocketsLeave target => SubjectRouted.Emitter_socketsLeave e target ;;; ret JUndefined
  | DisconnectSockets close =>
      SubjectRouted.Emitter_disconnectSockets e close ;;; ret JUndefined
  end.

Definition Property_Emitter_call (MessageType : PropertyRouted.MessageKind -> Z)
    (e : Emitter) (t : Terminal) : Run JsValue :=
  match t with
  | Emit ev args => b <- PropertyRouted.Emitter_emit MessageType e ev args ;; ret (JBool b)
  | SocketsJoin target =>
      PropertyRouted.Emitter_socketsJoin MessageType e target ;;; ret JUndefined
  | SocketsLeave target =>
      PropertyRouted.Emitter_socketsLeave MessageType e target ;;; ret JUndefined
  | DisconnectSockets close =>
      PropertyRouted.Emitter_disconnectSockets MessageType e close ;;; ret JUndefined
  end.

(** [op.t1(...); op.t2(...); ...]: terminal calls made one after the other on
    one builder, with the values they return; a throw ends the sequence. *)
Fixpoint Subject_calls (op : BroadcastOperator) (ts : list Terminal) : Run (list JsValue) :=
  match ts with
  | [] => ret []
  | t :: rest =>
      v <- SubjectRouted.call op t ;;
      vs <- Subject_calls op rest ;;
      ret (v :: vs)
  end.

Fixpoint Property_calls (MessageType : PropertyRouted.MessageKind -> Z)
    (op : BroadcastOperator) (ts : list Terminal) : Run (list JsValue) :=
  match ts with
  | [] => ret []
  | t :: rest =>
      v <- PropertyRouted.call MessageType op t ;;
      vs <- Property_calls MessageType op rest ;;
      ret (v :: vs)
  end.

(** What a terminal call hands to the sender, in each dialect. *)
Definition Subject_sends (bo : BroadcastOptions.t) (c : Criteria) (t : Terminal) : JsValue :=
  SubjectRouted.service_bus_message (Subject_channel bo c t)
    (Subject_body (BroadcastOptions.parser bo) t (Subject_message bo c t)).

Definition Property_sends (MessageType : PropertyRouted.MessageKind -> Z)
    (bo : BroadcastOptions.t) (c : Criteria) (t : Terminal) : JsValue :=
  PropertyRouted.operator_message (BroadcastOptions.nsp bo)
    (encode (BroadcastOptions.parser bo) (Property_message MessageType bo c t)).



(** The flags after a refinement call, when no key is repeated. *)
Definition set_flag (flags : list (string * JsValue)) (r : Refinement)
  : list (string * JsValue) :=
  match r with
  | Compress b => set_prop flags "compress" (JBool b)
  | Volatile => set_prop flags "volatile" (JBool true)
  | _ => flags
  end.



(** Whether a terminal call is [emit]. *)
Definition is_emit (t : Terminal) : bool :=
  match t with
  | Emit _ _ => true
  | _ => false
  end.

(** ** Concrete runs *)

(** A default emitter with the JSON parser of the custom-parser test suite. *)
Definition sample_emitter : Emitter :=
  new_Emitter JSON_stringify (Some (EmitterOptions.mk None (Some json_parser))) None.

(** The builder [emitter.to("room1")] of that emitter, and the store it lives
    in. *)
Definition sample_options : BroadcastOptions.t :=
  BroadcastOptions.mk "/" "socket.io#/#" "socket.io-request#/#" json_parser.

Definition sample_operator : BroadcastOperator := mkOperator sample_options 2 1 0.

Definition sample_world : World := mkWorld [[]; []; ["room1"]] [[]] [].

Definition sample_criteria : Criteria := mkCriteria ["room1"] [] [].

(** * Properties *)

(** ** Sets as insertion-ordered lists *)

Lemma elem_of_add_elem (elems : list string) (r x : string) :
  x ∈ add_elem elems r ↔ x ∈ elems ∨ x = r.
Proof.
  unfold add_elem. case_bool_decide as Hin.
  - split; [auto | intros [H | ->]; assumption].
  - rewrite elem_of_app, list_elem_of_singleton. reflexivity.
Qed.

Lemma NoDup_add_elem (elems : list string) (r : string) :
  NoDup elems → NoDup (add_elem elems r).
Proof.
  intros Hnd. unfold add_elem. case_bool_decide as Hin; [assumption |].
  apply NoDup_app. split; [assumption |]. split.
  - intros x Hx Hr. apply list_elem_of_singleton in Hr. subst x. contradiction.
  - apply NoDup_singleton.
Qed.



Lemma NoDup_add_all (l elems : list string) :
  NoDup elems → NoDup (add_all elems l).
Proof.
  revert elems. induction l as [| r l IH]; intros elems Hnd; simpl.
  - assumption.
  - apply IH, NoDup_add_elem, Hnd.
Qed.



(** ** Plain objects as property lists *)

Lemma get_prop_set_prop_eq (props : list (string * JsValue)) (k : string) (v : JsValue) :
  get_prop k (set_prop props k v) = Some v.
Proof.
  induction props as [| [k' v'] props IH]; simpl.
  - rewrite String.eqb_refl. reflexivity.
  - destruct (String.eqb k k') eqn:E; simpl; rewrite E; [reflexivity | exact IH].
Qed.

Lemma get_prop_set_prop_ne (props : list (string * JsValue)) (k k0 : string) (v : JsValue) :
  k0 ≠ k → get_prop k0 (set_prop props k v) = get_prop k0 props.
Proof.
  intros Hne. induction props as [| [k' v'] props IH]; simpl.
  - destruct (String.eqb k0 k) eqn:E; [| reflexivity].
    apply String.eqb_eq in E. contradiction.
  - destruct (String.eqb k k') eqn:E; simpl.
    + apply String.eqb_eq in E. subst k'.
      apply String.eqb_neq in Hne. rewrite Hne. reflexivity.
    + rewrite IH. reflexivity.
Qed.

(** [compress(b)] records [b], also [false], under [compress] and keeps
    every other flag; likewise [volatile]. *)
Lemma assigned_flags_get (flags : list (string * JsValue)) (k k0 : string) (v : JsValue) :
  get_prop k (assigned_flags flags [(k, v)]) = Some v ∧
  (k0 ≠ k →
   get_prop k0 (assigned_flags flags [(k, v)]) = get_prop k0 (assign_all [] flags)).
Proof.
  unfold assigned_flags. simpl. split.
  - apply get_prop_set_prop_eq.
  - intros Hne. apply get_prop_set_prop_ne, Hne.
Qed.

(** ** Store operations *)

Lemma forEach_Set_add (l : list string) (s : loc) (elems : list string) (w : World) :
  sets w !! s = Some elems →
  forEach l (fun r => Set_add s r) w
  = (Normal tt, mkWorld (<[s := add_all elems l]> (sets w)) (objs w) (sent w)).
Proof.
  revert elems w. induction l as [| r l IH]; intros elems w Hs; simpl.
  - unfold ret. rewrite list_insert_id by exact Hs. destruct w; reflexivity.
  - unfold bind at 1. unfold Set_add, bind, Set_read, Set_write. rewrite Hs.
    rewrite (IH (add_elem elems r)); simpl.
    + rewrite list_insert_insert_eq. reflexivity.
    + apply list_lookup_insert_eq. eapply lookup_lt_Some, Hs.
Qed.

(** [new Set(src)] followed by the [add] loop: one new set, nothing else
    touched. *)
Lemma copy_and_add {A} (src : loc) (l elems : list string) (k : loc → Run A) (w : World) :
  sets w !! src = Some elems →
  (s <- Set_copy src ;; forEach l (fun r => Set_add s r) ;;; k s) w
  = k (length (sets w)) (mkWorld (sets w ++ [add_all elems l]) (objs w) (sent w)).
Proof.
  intros Hs. unfold bind at 1. unfold Set_copy, bind, Set_read, Set_alloc. rewrite Hs.
  rewrite (forEach_Set_add l _ elems); simpl.
  - f_equal. f_equal.
    replace (length (sets w)) with (length (sets w) + 0) at 1 by lia.
    rewrite insert_app_r. reflexivity.
  - rewrite lookup_app_r by lia. rewrite Nat.sub_diag. reflexivity.
Qed.

Lemma forEach_Obj_set (source : list (string * JsValue)) (o : loc)
    (props : list (string * JsValue)) (w : World) :
  objs w !! o = Some props →
  Obj_assign o source w
  = (Normal tt, mkWorld (sets w) (<[o := assign_all props source]> (objs w)) (sent w)).
Proof.
  unfold Obj_assign.
  revert props w. induction source as [| [k v] source IH]; intros props w Ho; simpl.
  - unfold ret. rewrite list_insert_id by exact Ho. destruct w; reflexivity.
  - unfold bind at 1. unfold Obj_set, bind, Obj_read. rewrite Ho.
    rewrite (IH (set_prop props k v)); simpl.
    + rewrite list_insert_insert_eq. reflexivity.
    + apply list_lookup_insert_eq. eapply lookup_lt_Some, Ho.
Qed.

Lemma assign_flags_run (this : BroadcastOperator) (extra own : list (string * JsValue))
    (w : World) :
  objs w !! flags this = Some own →
  assign_flags this extra w
  = (Normal (length (objs w)),
     mkWorld (sets w) (objs w ++ [assigned_flags own extra]) (sent w)).
Proof.
  intros Ho. unfold assign_flags, bind at 1 2. unfold Obj_new, Obj_read. simpl.
  rewrite lookup_app_l by (eapply lookup_lt_Some, Ho). rewrite Ho.
  unfold bind at 1.
  rewrite (forEach_Obj_set own _ []); simpl.
  2: { rewrite lookup_app_r by lia. rewrite Nat.sub_diag. reflexivity. }
  unfold bind.
  rewrite (forEach_Obj_set extra _ (assign_all [] own)); simpl.
  2: { apply list_lookup_insert_eq. rewrite length_app. simpl. lia. }
  unfold ret, assigned_flags. f_equal. f_equal.
  rewrite list_insert_insert_eq.
  replace (length (objs w)) with (length (objs w) + 0) by lia.
  rewrite insert_app_r. reflexivity.
Qed.

(** ** Refinement calls on the store *)

Lemma extends_refl (w : World) : extends w w.
Proof.
  repeat split; try (exists []; rewrite app_nil_r; reflexivity).
Qed.

Lemma extends_trans (w1 w2 w3 : World) : extends w1 w2 → extends w2 w3 → extends w1 w3.
Proof.
  intros ([s1 Hs1] & [o1 Ho1] & Hm1) ([s2 Hs2] & [o2 Ho2] & Hm2).
  repeat split.
  - exists (s1 ++ s2)%list. rewrite Hs2, Hs1, app_assoc. reflexivity.
  - exists (o1 ++ o2)%list. rewrite Ho2, Ho1, app_assoc. reflexivity.
  - congruence.
Qed.

(** What a builder holds is not affected by later allocations. *)
Lemma holds_extends (w w' : World) (op : BroadcastOperator) (c : Criteria) :
  holds w op c → extends w w' → holds w' op c.
Proof.
  intros (Hr & He & Hf) ([s Hs] & [o Ho] & _). unfold holds.
  rewrite Hs, Ho. repeat split; apply lookup_app_l_Some; assumption.
Qed.

Lemma to_run (this : BroadcastOperator) (room : RoomArg) (elems : list string) (w : World) :
  sets w !! rooms this = Some elems →
  to this room w
  = (Normal (mkOperator (broadcastOptions this) (length (sets w)) (exceptRooms this)
               (flags this)),
     mkWorld (sets w ++ [add_all elems (listify room)]) (objs w) (sent w)).
Proof. intros Hs. unfold to. rewrite (copy_and_add _ _ elems) by exact Hs. reflexivity. Qed.

Lemma except_run (this : BroadcastOperator) (room : RoomArg) (elems : list string)
    (w : World) :
  sets w !! exceptRooms this = Some elems →
  except this room w
  = (Normal (mkOperator (broadcastOptions this) (rooms this) (length (sets w))
               (flags this)),
     mkWorld (sets w ++ [add_all elems (listify room)]) (objs w) (sent w)).
Proof. intros Hs. unfold except. rewrite (copy_and_add _ _ elems) by exact Hs. reflexivity. Qed.

Lemma compress_run (this : BroadcastOperator) (c : bool) (own : list (string * JsValue))
    (w : World) :
  objs w !! flags this = Some own →
  compress this c w
  = (Normal (mkOperator (broadcastOptions this) (rooms this) (exceptRooms this)
               (length (objs w))),
     mkWorld (sets w) (objs w ++ [assigned_flags own [("compress", JBool c)]]) (sent w)).
Proof.
  intros Ho. unfold compress, bind. rewrite (assign_flags_run _ _ own) by exact Ho.
  reflexivity.
Qed.

Lemma volatile_run (this : BroadcastOperator) (own : list (string * JsValue)) (w : World) :
  objs w !! flags this = Some own →
  volatile this w
  = (Normal (mkOperator (broadcastOptions this) (rooms this) (exceptRooms this)
               (length (objs w))),
     mkWorld (sets w) (objs w ++ [assigned_flags own [("volatile", JBool true)]]) (sent w)).
Proof.
  intros Ho. unfold volatile, bind. rewrite (assign_flags_run _ _ own) by exact Ho.
  reflexivity.
Qed.

Lemma new_BroadcastOperator_run (bo : BroadcastOptions.t) (w : World) :
  new_BroadcastOperator bo w
  = (Normal (mkOperator bo (length (sets w)) (S (length (sets w))) (length (objs w))),
     mkWorld (sets w ++ [[]; []]) (objs w ++ [[]]) (sent w)).
Proof.
  unfold new_BroadcastOperator, bind, Set_new, Set_alloc, Obj_new, ret. simpl.
  rewrite length_app, <- app_assoc. simpl.
  replace (length (sets w) + 1) with (S (length (sets w))) by lia. reflexivity.
Qed.

(** Every refinement call returns normally, the builder it returns holds the
    refined contents, and the store is only extended. *)
Lemma refine_run (op : BroadcastOperator) (r : Refinement) (c : Criteria) (w : World) :
  holds w op c →
  ∃ op' w',
    refine op r w = (Normal op', w') ∧
    holds w' op' (refined c r) ∧
    extends w w' ∧
    broadcastOptions op' = broadcastOptions op.
Proof.
  intros (Hr & He & Hf).
  assert (Hlr := lookup_lt_Some _ _ _ Hr).
  assert (Hle := lookup_lt_Some _ _ _ He).
  assert (Hlf := lookup_lt_Some _ _ _ Hf).
  destruct r as [room | room | room | b |]; simpl; unfold in_;
    [ rewrite (to_run _ _ _ _ Hr) | rewrite (to_run _ _ _ _ Hr)
    | rewrite (except_run _ _ _ _ He) | rewrite (compress_run _ _ _ _ Hf)
    | rewrite (volatile_run _ _ _ Hf) ];
    eexists _, _; (split; [reflexivity |]);
    (split; [| split; [| reflexivity]]).
  all: unfold holds, extends; simpl; repeat split; eauto.
  all: first
    [ assumption
    | rewrite lookup_app_l by assumption; assumption
    | rewrite lookup_app_r by lia; rewrite Nat.sub_diag; reflexivity
    | exists []; rewrite app_nil_r; reflexivity ].
Qed.

(** The contents after a chain of refinement calls. *)
Lemma chain_run (rs : list Refinement) (op : BroadcastOperator) (c : Criteria) (w : World) :
  holds w op c →
  ∃ op' w',
    chain op rs w = (Normal op', w') ∧
    holds w' op' (fold_left refined rs c) ∧
    extends w w' ∧
    broadcastOptions op' = broadcastOptions op.
Proof.
  revert op c w. induction rs as [| r rs IH]; intros op c w Hh; simpl.
  - exists op, w. split; [reflexivity |]. split; [exact Hh |].
    split; [apply extends_refl | reflexivity].
  - destruct (refine_run op r c w Hh) as (op1 & w1 & Hrun & Hh1 & Hx1 & Hbo1).
    destruct (IH op1 (refined c r) w1 Hh1) as (op2 & w2 & Hrun2 & Hh2 & Hx2 & Hbo2).
    exists op2, w2. unfold bind. rewrite Hrun.
    split; [exact Hrun2 |]. split; [exact Hh2 |].
    split; [eapply extends_trans; eassumption | congruence].
Qed.

(** A chain started on the emitter. *)
Lemma Emitter_chain_run (e : Emitter) (rs : list Refinement) (w : World) :
  ∃ op' w',
    Emitter_chain e rs w = (Normal op', w') ∧
    holds w' op' (fold_left refined rs no_criteria) ∧
    extends w w' ∧
    broadcastOptions op' = emitterBroadcastOptions e.
Proof.
  unfold Emitter_chain, bind. rewrite new_BroadcastOperator_run.
  set (op := mkOperator _ _ _ _). set (w0 := mkWorld _ _ _).
  assert (Hh : holds w0 op no_criteria).
  { unfold holds, op, w0; simpl. repeat split.
    - rewrite lookup_app_r by lia. rewrite Nat.sub_diag. reflexivity.
    - rewrite lookup_app_r by lia.
      replace (S (length (sets w)) - length (sets w)) with 1 by lia. reflexivity.
    - rewrite lookup_app_r by lia. rewrite Nat.sub_diag. reflexivity. }
  destruct (chain_run rs op no_criteria w0 Hh) as (op' & w' & Hrun & Hh' & Hx & Hbo).
  exists op', w'. split; [exact Hrun |]. split; [exact Hh' |].
  split; [| exact Hbo].
  eapply extends_trans; [| exact Hx].
  unfold extends, w0; simpl. repeat split; eauto.
Qed.

(** ** Terminal calls on the store *)

Ltac run_terminal Hh :=
  let Hr := fresh "Hr" in
  let He := fresh "He" in
  let Hf := fresh "Hf" in
  destruct Hh as (Hr & He & Hf);
  unfold Set_spread, Set_size, Set_first;
  unfold bind, Set_read, Obj_read, ret, sendMessages;
  simpl; repeat (first [rewrite Hr | rewrite He | rewrite Hf]; simpl).

Lemma Subject_emit_run (op : BroadcastOperator) (ev : JsValue) (args : list JsValue)
    (c : Criteria) (w : World) :
  holds w op c →
  RESERVED_EVENTS_has ev = false →
  SubjectRouted.emit op ev args w
  = (Normal true,
     mkWorld (sets w) (objs w)
       (sent w ++
        [SubjectRouted.service_bus_message
           (broadcast_subject (broadcastOptions op) (c_rooms c))
           (encode (BroadcastOptions.parser (broadcastOptions op))
              (SubjectRouted.broadcast_message
                 (BroadcastOptions.nsp (broadcastOptions op)) ev args
                 (c_rooms c) (c_flags c) (c_except c)))])).
Proof.
  intros Hh Hev. unfold SubjectRouted.emit, SubjectRouted.sendMessage. rewrite Hev.
  run_terminal Hh.
  destruct (c_rooms c) as [| r [| r' rest]]; simpl; rewrite ?Hr; reflexivity.
Qed.

Lemma Subject_emit_reserved (op : BroadcastOperator) (ev : JsValue) (args : list JsValue)
    (w : World) :
  RESERVED_EVENTS_has ev = true →
  SubjectRouted.emit op ev args w = (Throw (reserved_event_error ev), w).
Proof. intros Hev. unfold SubjectRouted.emit. rewrite Hev. reflexivity. Qed.

Lemma Subject_socketsJoin_run (op : BroadcastOperator) (target : RoomArg) (c : Criteria)
    (w : World) :
  holds w op c →
  SubjectRouted.socketsJoin op target w
  = (Normal tt,
     mkWorld (sets w) (objs w)
       (sent w ++
        [SubjectRouted.service_bus_message
           (BroadcastOptions.requestChannel (broadcastOptions op))
           (JSON_stringify
              (SubjectRouted.rooms_request SubjectRouted.REMOTE_JOIN
                 (c_rooms c) (c_except c) target))])).
Proof.
  intros Hh. unfold SubjectRouted.socketsJoin, SubjectRouted.sendMessage.
  run_terminal Hh. reflexivity.
Qed.

Lemma Subject_socketsLeave_run (op : BroadcastOperator) (target : RoomArg) (c : Criteria)
    (w : World) :
  holds w op c →
  SubjectRouted.socketsLeave op target w
  = (Normal tt,
     mkWorld (sets w) (objs w)
       (sent w ++
        [SubjectRouted.service_bus_message
           (BroadcastOptions.requestChannel (broadcastOptions op))
           (JSON_stringify
              (SubjectRouted.rooms_request SubjectRouted.REMOTE_LEAVE
                 (c_rooms c) (c_except c) target))])).
Proof.
  intros Hh. unfold SubjectRouted.socketsLeave, SubjectRouted.sendMessage.
  run_terminal Hh. reflexivity.
Qed.

Lemma Subject_disconnectSockets_run (op : BroadcastOperator) (close : option bool)
    (c : Criteria) (w : World) :
  holds w op c →
  SubjectRouted.disconnectSockets op close w
  = (Normal tt,
     mkWorld (sets w) (objs w)
       (sent w ++
        [SubjectRouted.service_bus_message
           (BroadcastOptions.requestChannel (broadcastOptions op))
           (JSON_stringify
              (SubjectRouted.disconnect_request (c_rooms c) (c_except c)
                 (match close with Some b => b | None => false end)))])).
Proof.
  intros Hh. unfold SubjectRouted.disconnectSockets, SubjectRouted.sendMessage.
  run_terminal Hh. reflexivity.
Qed.

Section PropertyRuns.

Variable MessageType : PropertyRouted.MessageKind → Z.

Lemma Property_emit_run (op : BroadcastOperator) (ev : JsValue) (args : list JsValue)
    (c : Criteria) (w : World) :
  holds w op c →
  RESERVED_EVENTS_has ev = false →
  PropertyRouted.emit MessageType op ev args w
  = (Normal true,
     mkWorld (sets w) (objs w)
       (sent w ++
        [PropertyRouted.operator_message (BroadcastOptions.nsp (broadcastOptions op))
           (encode (BroadcastOptions.parser (broadcastOptions op))
              (PropertyRouted.broadcast_message MessageType
                 (BroadcastOptions.nsp (broadcastOptions op)) ev args
                 (c_rooms c) (c_flags c) (c_except c)))])).
Proof.
  intros Hh Hev. unfold PropertyRouted.emit, PropertyRouted.sendMessage. rewrite Hev.
  run_terminal Hh. reflexivity.
Qed.

Lemma Property_emit_reserved (op : BroadcastOperator) (ev : JsValue) (args : list JsValue)
    (w : World) :
  RESERVED_EVENTS_has ev = true →
  PropertyRouted.emit MessageType op ev args w = (Throw (reserved_event_error ev), w).
Proof. intros Hev. unfold PropertyRouted.emit. rewrite Hev. reflexivity. Qed.

Lemma Property_socketsJoin_run (op : BroadcastOperator) (target : RoomArg) (c : Criteria)
    (w : World) :
  holds w op c →
  PropertyRouted.socketsJoin MessageType op target w
  = (Normal tt,
     mkWorld (sets w) (objs w)
       (sent w ++
        [PropertyRouted.operator_message (BroadcastOptions.nsp (broadcastOptions op))
           (encode (BroadcastOptions.parser (broadcastOptions op))
              (PropertyRouted.rooms_message MessageType PropertyRouted.SOCKETS_JOIN
                 (BroadcastOptions.nsp (broadcastOptions op))
                 (c_rooms c) (c_except c) (c_flags c) target))])).
Proof.
  intros Hh. unfold PropertyRouted.socketsJoin, PropertyRouted.sendMessage.
  run_terminal Hh. reflexivity.
Qed.

Lemma Property_socketsLeave_run (op : BroadcastOperator) (target : RoomArg) (c : Criteria)
    (w : World) :
  holds w op c →
  PropertyRouted.socketsLeave MessageType op target w
  = (Normal tt,
     mkWorld (sets w) (objs w)
       (sent w ++
        [PropertyRouted.operator_message (BroadcastOptions.nsp (broadcastOptions op))
           (encode (BroadcastOptions.parser (broadcastOptions op))
              (PropertyRouted.rooms_message MessageType PropertyRouted.SOCKETS_LEAVE
                 (BroadcastOptions.nsp (broadcastOptions op))
                 (c_rooms c) (c_except c) (c_flags c) target))])).
Proof.
  intros Hh. unfold PropertyRouted.socketsLeave, PropertyRouted.sendMessage.
  run_terminal Hh. reflexivity.
Qed.

Lemma Property_disconnectSockets_run (op : BroadcastOperator) (close : option bool)
    (c : Criteria) (w : World) :
  holds w op c →
  PropertyRouted.disconnectSockets MessageType op close w
  = (Normal tt,
     mkWorld (sets w) (objs w)
       (sent w ++
        [PropertyRouted.operator_message (BroadcastOptions.nsp (broadcastOptions op))
           (encode (BroadcastOptions.parser (broadcastOptions op))
              (PropertyRouted.disconnect_message MessageType
                 (BroadcastOptions.nsp (broadcastOptions op))
                 (c_rooms c) (c_except c) (c_flags c)
                 (match close with Some b => b | None => false end)))])).
Proof.
  intros Hh. unfold PropertyRouted.disconnectSockets, PropertyRouted.sendMessage.
  run_terminal Hh. reflexivity.
Qed.

End PropertyRuns.

(** ** Reserved event names *)

Lemma RESERVED_EVENTS_has_spec (ev : JsValue) :
  RESERVED_EVENTS_has ev = true ↔
  ∃ name, ev = JStr name ∧
    name ∈ ["connect"; "connect_error"; "disconnect"; "disconnecting"; "newListener";
            "removeListener"].
Proof.
  split.
  - destruct ev; simpl; try discriminate.
    intros H. apply bool_decide_eq_true_1 in H. eauto.
  - intros (name & -> & Hin). simpl. apply bool_decide_eq_true_2. exact Hin.
Qed.

(** C1. [emit] with one of the six reserved names ([connect], [connect_error],
    [disconnect], [disconnecting], [newListener], [removeListener]) throws
    the reserved-event error at once: the store and the list of sent messages
    are exactly as before the call, in both dialects, also when called on
    the emitter itself.  With any other event name [emit] returns [true] and
    hands exactly one message to the sender.  Its body is the parser's
    encoding of the broadcast message: in the subject-routed dialect the
    array of the uid, the event packet and the options, sent on the
    broadcast subject; in the property-routed dialect the cluster message
    with the uid, the broadcast type, the packet and options as data, and
    the namespace, sent with the namespace as application property. *)
Theorem emit_reserved_event_check
    (MessageType : PropertyRouted.MessageKind → Z) (e : Emitter)
    (op : BroadcastOperator) (ev : JsValue) (args : list JsValue) (w : World) :
  let bo := broadcastOptions op in
  let namespace := BroadcastOptions.nsp bo in
  let packet :=
    JObj [("type", JNum 2); ("data", JArr (ev :: args)); ("nsp", JStr namespace)] in
  (RESERVED_EVENTS_has ev = true ↔
   ∃ name, ev = JStr name ∧
     name ∈ ["connect"; "connect_error"; "disconnect"; "disconnecting"; "newListener";
             "removeListener"]) ∧
  (RESERVED_EVENTS_has ev = true →
   SubjectRouted.emit op ev args w = (Throw (reserved_event_error ev), w) ∧
   PropertyRouted.emit MessageType op ev args w = (Throw (reserved_event_error ev), w) ∧
   fst (SubjectRouted.Emitter_emit e ev args w) = Throw (reserved_event_error ev) ∧
   sent_by (SubjectRouted.Emitter_emit e ev args w) = sent w ∧
   fst (PropertyRouted.Emitter_emit MessageType e ev args w)
   = Throw (reserved_event_error ev) ∧
   sent_by (PropertyRouted.Emitter_emit MessageType e ev args w) = sent w) ∧
  (RESERVED_EVENTS_has ev = false →
   ∀ c, holds w op c →
   let opts :=
     JObj [("rooms", JArr (JStr <$> c_rooms c)); ("flags", JObj (c_flags c));
           ("except", JArr (JStr <$> c_except c))] in
   SubjectRouted.emit op ev args w
   = (Normal true,
      mkWorld (sets w) (objs w)
        (sent w ++
         [JObj [("body",
                 encode (BroadcastOptions.parser bo)
                   (JArr [JStr "emitter"; packet; opts]));
                ("contentType", JStr "application/octet-stream");
                ("subject",
                 JStr match c_rooms c with
                      | [r] => BroadcastOptions.broadcastChannel bo +:+ r +:+ "#"
                      | _ => BroadcastOptions.broadcastChannel bo
                      end)]])) ∧
   PropertyRouted.emit MessageType op ev args w
   = (Normal true,
      mkWorld (sets w) (objs w)
        (sent w ++
         [JObj [("body",
                 encode (BroadcastOptions.parser bo)
                   (JObj [("uid", JStr "emitter");
                          ("type", JNum (MessageType PropertyRouted.BROADCAST));
                          ("data", JObj [("packet", packet); ("opts", opts)]);
                          ("nsp", JStr namespace)]));
                ("contentType", JStr "application/octet-stream");
                ("applicationProperties", JObj [("nsp", JStr namespace)])]]))).
Proof.
  intros bo namespace packet.
  split; [apply RESERVED_EVENTS_has_spec |]. split.
  - intros Hev.
    split; [apply Subject_emit_reserved, Hev |].
    split; [apply Property_emit_reserved, Hev |].
    unfold SubjectRouted.Emitter_emit, PropertyRouted.Emitter_emit, sent_by, bind.
    rewrite new_BroadcastOperator_run.
    rewrite Subject_emit_reserved, Property_emit_reserved by exact Hev.
    simpl. auto.
  - intros Hev c Hh opts. split.
    + exact (Subject_emit_run op ev args c w Hh Hev).
    + exact (Property_emit_run MessageType op ev args c w Hh Hev).
Qed.

Lemma sample_holds : holds sample_world sample_operator sample_criteria.
Proof. repeat split. Qed.

Lemma emit_reserved_event_check_witness :
  SubjectRouted.emit sample_operator (JStr "connect") [] sample_world
  = (Throw (reserved_event_error (JStr "connect")), sample_world) ∧
  sent_by (SubjectRouted.emit sample_operator (JStr "hello") [JNum 1] sample_world)
  = [JObj [("body",
            JSON_stringify
              (JArr [JStr "emitter";
                     JObj [("type", JNum 2); ("data", JArr [JStr "hello"; JNum 1]);
                           ("nsp", JStr "/")];
                     JObj [("rooms", JArr [JStr "room1"]); ("flags", JObj []);
                           ("except", JArr [])]]));
           ("contentType", JStr "application/octet-stream");
           ("subject", JStr "socket.io#/#room1#")]] ∧
  sent_by (PropertyRouted.emit PropertyRouted.socket_io_adapter_MessageType
             sample_operator (JStr "hello") [JNum 1] sample_world)
  = [JObj [("body",
            JSON_stringify
              (JObj [("uid", JStr "emitter"); ("type", JNum 3);
                     ("data",
                      JObj [("packet",
                             JObj [("type", JNum 2);
                                   ("data", JArr [JStr "hello"; JNum 1]);
                                   ("nsp", JStr "/")]);
                            ("opts",
                             JObj [("rooms", JArr [JStr "room1"]); ("flags", JObj []);
                                   ("except", JArr [])])]);
                     ("nsp", JStr "/")]));
           ("contentType", JStr "application/octet-stream");
           ("applicationProperties", JObj [("nsp", JStr "/")])]].
Proof.
  destruct (emit_reserved_event_check PropertyRouted.socket_io_adapter_MessageType
              (mkEmitter (mkMerged "socket.io" json_parser) "/" sample_options)
              sample_operator (JStr "connect") [] sample_world) as (_ & Hthrow & _).
  destruct (emit_reserved_event_check PropertyRouted.socket_io_adapter_MessageType
              (mkEmitter (mkMerged "socket.io" json_parser) "/" sample_options)
              sample_operator (JStr "hello") [JNum 1] sample_world) as (_ & _ & Hsend).
  split; [apply Hthrow; reflexivity |].
  destruct (Hsend eq_refl sample_criteria sample_holds) as (Hs & Hp).
  unfold sent_by. rewrite Hs, Hp. split; reflexivity.
Defined.

(** ** Refinement calls do not touch the receiver *)

(** A terminal call reads the store only through what the builder holds. *)
Lemma Subject_call_stable (op : BroadcastOperator) (t : Terminal) (c : Criteria)
    (w1 w2 : World) :
  holds w1 op c → holds w2 op c →
  fst (SubjectRouted.call op t w1) = fst (SubjectRouted.call op t w2) ∧
  ∃ msgs,
    sent_by (SubjectRouted.call op t w1) = sent w1 ++ msgs ∧
    sent_by (SubjectRouted.call op t w2) = sent w2 ++ msgs.
Proof.
  intros H1 H2. unfold sent_by. destruct t as [ev args | target | target | close]; simpl.
  - destruct (RESERVED_EVENTS_has ev) eqn:Hev; unfold bind.
    + rewrite !Subject_emit_reserved by exact Hev. simpl.
      split; [reflexivity |]. exists []. rewrite !app_nil_r. auto.
    + rewrite (Subject_emit_run _ _ _ c w1), (Subject_emit_run _ _ _ c w2) by assumption.
      simpl. eauto.
  - unfold bind.
    rewrite (Subject_socketsJoin_run _ _ c w1), (Subject_socketsJoin_run _ _ c w2)
      by assumption.
    simpl. eauto.
  - unfold bind.
    rewrite (Subject_socketsLeave_run _ _ c w1), (Subject_socketsLeave_run _ _ c w2)
      by assumption.
    simpl. eauto.
  - unfold bind.
    rewrite (Subject_disconnectSockets_run _ _ c w1),
      (Subject_disconnectSockets_run _ _ c w2) by assumption.
    simpl. eauto.
Qed.

Lemma Property_call_stable (MessageType : PropertyRouted.MessageKind → Z)
    (op : BroadcastOperator) (t : Terminal) (c : Criteria) (w1 w2 : World) :
  holds w1 op c → holds w2 op c →
  fst (PropertyRouted.call MessageType op t w1)
  = fst (PropertyRouted.call MessageType op t w2) ∧
  ∃ msgs,
    sent_by (PropertyRouted.call MessageType op t w1) = sent w1 ++ msgs ∧
    sent_by (PropertyRouted.call MessageType op t w2) = sent w2 ++ msgs.
Proof.
  intros H1 H2. unfold sent_by. destruct t as [ev args | target | target | close]; simpl.
  - destruct (RESERVED_EVENTS_has ev) eqn:Hev; unfold bind.
    + rewrite !Property_emit_reserved by exact Hev. simpl.
      split; [reflexivity |]. exists []. rewrite !app_nil_r. auto.
    + rewrite (Property_emit_run _ _ _ _ c w1), (Property_emit_run _ _ _ _ c w2)
        by assumption.
      simpl. eauto.
  - unfold bind.
    rewrite (Property_socketsJoin_run _ _ _ c w1), (Property_socketsJoin_run _ _ _ c w2)
      by assumption.
    simpl. eauto.
  - unfold bind.
    rewrite (Property_socketsLeave_run _ _ _ c w1), (Property_socketsLeave_run _ _ _ c w2)
      by assumption.
    simpl. eauto.
  - unfold bind.
    rewrite (Property_disconnectSockets_run _ _ _ c w1),
      (Property_disconnectSockets_run _ _ _ c w2) by assumption.
    simpl. eauto.
Qed.

(** The builder a refinement call returns refers to an object that did not
    exist before the call, so it is not the receiver. *)
Lemma refine_fresh (op op' : BroadcastOperator) (r : Refinement) (c : Criteria)
    (w w' : World) :
  holds w op c → refine op r w = (Normal op', w') →
  rooms op' = length (sets w) ∨ exceptRooms op' = length (sets w) ∨
  flags op' = length (objs w).
Proof.
  intros (Hr & He & Hf) Hrun.
  destruct r as [room | room | room | b |]; simpl in Hrun; unfold in_ in Hrun.
  - rewrite (to_run _ _ _ _ Hr) in Hrun. inversion Hrun; subst. auto.
  - rewrite (to_run _ _ _ _ Hr) in Hrun. inversion Hrun; subst. auto.
  - rewrite (except_run _ _ _ _ He) in Hrun. inversion Hrun; subst. auto.
  - rewrite (compress_run _ _ _ _ Hf) in Hrun. inversion Hrun; subst. auto.
  - rewrite (volatile_run _ _ _ Hf) in Hrun. inversion Hrun; subst. auto.
Qed.

(** C2. Every refinement call ([to], [in], [except], [compress], [volatile])
    returns normally with a builder other than the receiver, which holds the
    refined criteria; the call sends nothing and changes no object that
    existed before it, so the receiver still holds the same rooms, except
    rooms and flags, and every terminal call made on the receiver after the
    refinement completes the same way and sends the same messages as it
    would have before. *)
Theorem refinement_leaves_receiver_intact
    (MessageType : PropertyRouted.MessageKind → Z)
    (op : BroadcastOperator) (r : Refinement) (c : Criteria) (w : World) :
  holds w op c →
  ∃ op' w',
    refine op r w = (Normal op', w') ∧
    op' ≠ op ∧
    holds w' op' (refined c r) ∧
    holds w' op c ∧
    sent w' = sent w ∧
    (∀ l, l < length (sets w) → sets w' !! l = sets w !! l) ∧
    (∀ l, l < length (objs w) → objs w' !! l = objs w !! l) ∧
    ∀ t,
      (fst (SubjectRouted.call op t w') = fst (SubjectRouted.call op t w) ∧
       ∃ msgs,
         sent_by (SubjectRouted.call op t w') = sent w' ++ msgs ∧
         sent_by (SubjectRouted.call op t w) = sent w ++ msgs) ∧
      (fst (PropertyRouted.call MessageType op t w')
       = fst (PropertyRouted.call MessageType op t w) ∧
       ∃ msgs,
         sent_by (PropertyRouted.call MessageType op t w') = sent w' ++ msgs ∧
         sent_by (PropertyRouted.call MessageType op t w) = sent w ++ msgs).
Proof.
  intros Hh.
  destruct (refine_run op r c w Hh) as (op' & w' & Hrun & Hh' & Hx & Hbo).
  assert (Hkeep : holds w' op c) by (eapply holds_extends; eassumption).
  exists op', w'. split; [exact Hrun |]. split.
  { intros ->. pose proof Hh as (Hr & He & Hf).
    apply lookup_lt_Some in Hr, He, Hf.
    destruct (refine_fresh _ _ _ _ _ _ Hh Hrun) as [E | [E | E]]; lia. }
  split; [exact Hh' |]. split; [exact Hkeep |].
  destruct Hx as ([ms Hs] & [mo Ho] & Hsent).
  split; [exact Hsent |].
  split; [intros l Hl; rewrite Hs; apply lookup_app_l, Hl |].
  split; [intros l Hl; rewrite Ho; apply lookup_app_l, Hl |].
  intros t. split.
  - apply (Subject_call_stable op t c); assumption.
  - apply (Property_call_stable MessageType op t c); assumption.
Qed.

Lemma refinement_leaves_receiver_intact_witness :
  holds sample_world sample_operator sample_criteria ∧
  ∃ op' w',
    refine sample_operator (To (Room "room2")) sample_world = (Normal op', w') ∧
    holds w' op' (mkCriteria ["room1"; "room2"] [] []) ∧
    holds w' sample_operator sample_criteria.
Proof.
  split; [exact sample_holds |].
  destruct (refinement_leaves_receiver_intact PropertyRouted.socket_io_adapter_MessageType
              sample_operator (To (Room "room2")) sample_criteria sample_world
              sample_holds)
    as (op' & w' & Hrun & _ & Hnew & Hold & _).
  exists op', w'. split; [exact Hrun |]. split; [exact Hnew | exact Hold].
Defined.

(** ** Whole calls: a chain on the emitter, then [emit] *)



(** ** Rooms accumulate as a set *)






(** ** Rooms and exclusions are independent *)

Lemma elem_of_add_elem_same (elems : list string) (r : string) : r ∈ add_elem elems r.
Proof. apply elem_of_add_elem. right. reflexivity. Qed.

(** C4. [except] never changes the rooms set and [to] never changes the
    except set.  In particular after [to(r)] then [except(r)] the room [r] is
    in both sets, every room selected earlier is still selected, and [emit]
    sends a message whose options carry the two sets as they are, [r] in
    each: the [rooms] and [except] arrays list all elements of the rooms set
    and of the except set, in both dialects. *)
Theorem rooms_and_except_accumulate_independently
    (MessageType : PropertyRouted.MessageKind → Z)
    (op : BroadcastOperator) (r : string) (c : Criteria) (ev : JsValue)
    (args : list JsValue) (w : World) :
  holds w op c →
  RESERVED_EVENTS_has ev = false →
  let bo := broadcastOptions op in
  let namespace := BroadcastOptions.nsp bo in
  let packet :=
    JObj [("type", JNum 2); ("data", JArr (ev :: args)); ("nsp", JStr namespace)] in
  (∀ room, c_rooms (refined c (Except room)) = c_rooms c ∧
           c_except (refined c (To room)) = c_except c ∧
           c_except (refined c (In room)) = c_except c) ∧
  ∃ op' w' rooms except,
    chain op [To (Room r); Except (Room r)] w = (Normal op', w') ∧
    holds w' op' (mkCriteria rooms except (c_flags c)) ∧
    rooms = add_elem (c_rooms c) r ∧
    except = add_elem (c_except c) r ∧
    r ∈ rooms ∧ r ∈ except ∧
    (∀ x, x ∈ c_rooms c → x ∈ rooms) ∧
    (∀ x, x ∈ c_except c → x ∈ except) ∧
    (let opts :=
       JObj [("rooms", JArr (JStr <$> rooms)); ("flags", JObj (c_flags c));
             ("except", JArr (JStr <$> except))] in
     sent_by (SubjectRouted.emit op' ev args w')
     = sent w ++
       [JObj [("body",
               encode (BroadcastOptions.parser bo)
                 (JArr [JStr "emitter"; packet; opts]));
              ("contentType", JStr "application/octet-stream");
              ("subject",
               JStr match rooms with
                    | [x] => BroadcastOptions.broadcastChannel bo +:+ x +:+ "#"
                    | _ => BroadcastOptions.broadcastChannel bo
                    end)]] ∧
     sent_by (PropertyRouted.emit MessageType op' ev args w')
     = sent w ++
       [JObj [("body",
               encode (BroadcastOptions.parser bo)
                 (JObj [("uid", JStr "emitter");
                        ("type", JNum (MessageType PropertyRouted.BROADCAST));
                        ("data", JObj [("packet", packet); ("opts", opts)]);
                        ("nsp", JStr namespace)]));
              ("contentType", JStr "application/octet-stream");
              ("applicationProperties", JObj [("nsp", JStr namespace)])]]).
Proof.
  intros Hh Hev bo namespace packet. split; [intros room; simpl; auto |].
  destruct (chain_run [To (Room r); Except (Room r)] op c w Hh)
    as (op' & w' & Hrun & Hh' & Hx & Hbo).
  simpl in Hh'.
  exists op', w', (add_elem (c_rooms c) r), (add_elem (c_except c) r).
  split; [exact Hrun |]. split; [exact Hh' |].
  split; [reflexivity |]. split; [reflexivity |].
  split; [apply elem_of_add_elem_same |]. split; [apply elem_of_add_elem_same |].
  split; [intros x Hx'; apply elem_of_add_elem; left; exact Hx' |].
  split; [intros x Hx'; apply elem_of_add_elem; left; exact Hx' |].
  destruct Hx as (_ & _ & Hsent). intros opts. unfold sent_by. split.
  - rewrite (Subject_emit_run _ _ _ _ _ Hh' Hev). simpl sent.
    rewrite Hsent, Hbo. reflexivity.
  - rewrite (Property_emit_run _ _ _ _ _ _ Hh' Hev). simpl sent.
    rewrite Hsent, Hbo. reflexivity.
Qed.

Lemma rooms_and_except_accumulate_independently_witness :
  ∃ op' w',
    chain sample_operator [To (Room "room1"); Except (Room "room1")] sample_world
    = (Normal op', w') ∧
    holds w' op' (mkCriteria ["room1"] ["room1"] []) ∧
    sent_by (SubjectRouted.emit op' (JStr "hello") [] w')
    = [JObj [("body",
              JSON_stringify
                (JArr [JStr "emitter";
                       JObj [("type", JNum 2); ("data", JArr [JStr "hello"]);
                             ("nsp", JStr "/")];
                       JObj [("rooms", JArr [JStr "room1"]); ("flags", JObj []);
                             ("except", JArr [JStr "room1"])]]));
             ("contentType", JStr "application/octet-stream");
             ("subject", JStr "socket.io#/#room1#")]] ∧
    sent_by (PropertyRouted.emit PropertyRouted.socket_io_adapter_MessageType op'
               (JStr "hello") [] w')
    = [JObj [("body",
              JSON_stringify
                (JObj [("uid", JStr "emitter"); ("type", JNum 3);
                       ("data",
                        JObj [("packet",
                               JObj [("type", JNum 2); ("data", JArr [JStr "hello"]);
                                     ("nsp", JStr "/")]);
                              ("opts",
                               JObj [("rooms", JArr [JStr "room1"]); ("flags", JObj []);
                                     ("except", JArr [JStr "room1"])])]);
                       ("nsp", JStr "/")]));
             ("contentType", JStr "application/octet-stream");
             ("applicationProperties", JObj [("nsp", JStr "/")])]].
Proof.
  destruct (rooms_and_except_accumulate_independently
              PropertyRouted.socket_io_adapter_MessageType sample_operator "room1"
              sample_criteria (JStr "hello") [] sample_world sample_holds eq_refl)
    as (_ & op' & w' & rooms & except & Hrun & Hh & -> & -> & _ & _ & _ & _ & Hs & Hp).
  exists op', w'. split; [exact Hrun |]. split; [exact Hh |].
  split; [rewrite Hs; reflexivity | rewrite Hp; reflexivity].
Defined.

(** ** [socketsJoin] and [socketsLeave] *)




(** ** Namespaces *)

Lemma normalize_nsp_spec (name : string) :
  (∃ rest, normalize_nsp name = String "/"%char rest) ∧
  (∀ rest, name = String "/"%char rest → normalize_nsp name = name) ∧
  ((∀ rest, name ≠ String "/"%char rest) → normalize_nsp name = "/" +:+ name).
Proof.
  destruct name as [| ch rest]; simpl.
  - split; [eauto |]. split; [intros rest H; discriminate | reflexivity].
  - destruct (Ascii.eqb ch "/") eqn:E.
    + apply Ascii.eqb_eq in E. subst ch.
      split; [eauto |]. split; [reflexivity |].
      intros Hne. exfalso. apply (Hne rest). reflexivity.
    + split; [eexists; reflexivity |]. split; [| reflexivity].
      intros rest' H. inversion H; subst. rewrite Ascii.eqb_refl in E. discriminate.
Qed.

(** C6. [of(name)] binds the new emitter, and the builders made from it, to
    [name] when it starts with a slash and to ["/" + name] otherwise, so the
    namespace of [of(name)] always starts with a slash, [of("custom")] and
    [of("/custom")] are both bound to ["/custom"], and scoping again to the
    result changes nothing.  The constructor itself stores the [nsp]
    argument as it is given: [new Emitter(sbSender, opts, "custom")] is
    bound to ["custom"], which does not start with a slash, and its channels
    are built from that name. *)
Theorem namespace_normalization
    (msgpackEncode : JsValue → JsValue) (e : Emitter) (opts : option EmitterOptions.t)
    (name : string) :
  (∃ rest, nsp (Emitter_of msgpackEncode e name) = String "/"%char rest) ∧
  BroadcastOptions.nsp (emitterBroadcastOptions (Emitter_of msgpackEncode e name))
  = nsp (Emitter_of msgpackEncode e name) ∧
  (∀ rest, name = String "/"%char rest → nsp (Emitter_of msgpackEncode e name) = name) ∧
  ((∀ rest, name ≠ String "/"%char rest) →
   nsp (Emitter_of msgpackEncode e name) = "/" +:+ name) ∧
  nsp (Emitter_of msgpackEncode e "custom") = "/custom" ∧
  nsp (Emitter_of msgpackEncode e "/custom") = "/custom" ∧
  nsp (Emitter_of msgpackEncode (Emitter_of msgpackEncode e name)
         (nsp (Emitter_of msgpackEncode e name)))
  = nsp (Emitter_of msgpackEncode e name) ∧
  nsp (new_Emitter msgpackEncode opts None) = "/" ∧
  nsp (new_Emitter msgpackEncode opts (Some name)) = name ∧
  nsp (new_Emitter msgpackEncode None (Some "custom")) = "custom" ∧
  BroadcastOptions.broadcastChannel
    (emitterBroadcastOptions (new_Emitter msgpackEncode None (Some "custom")))
  = "socket.io#custom#".
Proof.
  destruct (normalize_nsp_spec name) as ([rest Hrest] & Hslash & Hnone).
  unfold Emitter_of, new_Emitter; simpl.
  split; [eauto |]. split; [reflexivity |].
  split; [exact Hslash |]. split; [exact Hnone |].
  split; [reflexivity |]. split; [reflexivity |].
  split; [| repeat split].
  rewrite Hrest. reflexivity.
Qed.

(** ** [serverSideEmit] *)

Lemma typeof_function (v : JsValue) :
  String.eqb (typeof v) "function" = true ↔ ∃ id, v = JFun id.
Proof.
  split.
  - destruct v; simpl; try discriminate. eauto.
  - intros [id ->]. reflexivity.
Qed.

Lemma withAck_spec (args : list JsValue) :
  withAck args = true ↔ ∃ init id, args = init ++ [JFun id].
Proof.
  unfold withAck, last_arg. rewrite typeof_function. split.
  - intros [id Hlast]. destruct args as [| a args]; [discriminate |].
    exists (removelast (a :: args)), id. rewrite <- Hlast.
    apply app_removelast_last. discriminate.
  - intros (init & id & ->). exists id. apply last_last.
Qed.

(** C7. [serverSideEmit] throws the acknowledgement error exactly when its
    last argument is a function; it then leaves the store and the list of
    sent messages as they were.  Otherwise, also for an empty argument list,
    it returns and hands exactly one server-side-emit message to the sender:
    in the subject-routed dialect the JSON request with the uid, the type
    and all arguments as [data], on the request channel of the namespace; in
    the property-routed dialect the parser's encoding of the message with
    the uid, the type, all arguments as [data.packet] and the namespace,
    with the namespace and the uid as application properties. *)
Theorem serverSideEmit_ack_check
    (msgpackEncode : JsValue → JsValue) (MessageType : PropertyRouted.MessageKind → Z)
    (opts : option EmitterOptions.t) (given : option string) (args : list JsValue)
    (w : World) :
  let e := new_Emitter msgpackEncode opts given in
  let namespace := match given with Some n => n | None => "/" end in
  (withAck args = true ↔ ∃ init id, args = init ++ [JFun id]) ∧
  (withAck args = true →
   SubjectRouted.serverSideEmit e args w = (Throw ack_error, w) ∧
   PropertyRouted.serverSideEmit MessageType e args w = (Throw ack_error, w)) ∧
  (withAck args = false →
   SubjectRouted.serverSideEmit e args w
   = (Normal tt,
      mkWorld (sets w) (objs w)
        (sent w ++
         [JObj [("body",
                 JSON_stringify
                   (JObj [("uid", JStr "emitter"); ("type", JNum 6);
                          ("data", JArr args)]));
                ("contentType", JStr "application/octet-stream");
                ("subject",
                 JStr (key (assign_defaults msgpackEncode opts) +:+ "-request#" +:+
                       namespace +:+ "#"))]])) ∧
   PropertyRouted.serverSideEmit MessageType e args w
   = (Normal tt,
      mkWorld (sets w) (objs w)
        (sent w ++
         [JObj [("body",
                 encode (parser (assign_defaults msgpackEncode opts))
                   (JObj [("uid", JStr "emitter");
                          ("type", JNum (MessageType PropertyRouted.SERVER_SIDE_EMIT));
                          ("data", JObj [("packet", JArr args)]);
                          ("nsp", JStr namespace)]));
                ("contentType", JStr "application/octet-stream");
                ("applicationProperties",
                 JObj [("nsp", JStr namespace); ("uid", JStr "emitter")])]]))) ∧
  withAck [] = false.
Proof.
  intros e namespace. split; [apply withAck_spec |]. split; [| split; [| reflexivity]].
  - intros Hack. unfold SubjectRouted.serverSideEmit, PropertyRouted.serverSideEmit.
    rewrite Hack. split; reflexivity.
  - intros Hack. unfold SubjectRouted.serverSideEmit, PropertyRouted.serverSideEmit.
    rewrite Hack. split; reflexivity.
Qed.

Lemma serverSideEmit_ack_check_witness :
  SubjectRouted.serverSideEmit sample_emitter [JStr "hello"; JFun 0] empty_world
  = (Throw ack_error, empty_world) ∧
  sent_by (SubjectRouted.serverSideEmit sample_emitter [JStr "hello"; JStr "world"]
             empty_world)
  = [JObj [("body",
            JSON_stringify
              (JObj [("uid", JStr "emitter"); ("type", JNum 6);
                     ("data", JArr [JStr "hello"; JStr "world"])]));
           ("contentType", JStr "application/octet-stream");
           ("subject", JStr "socket.io-request#/#")]] ∧
  sent_by (PropertyRouted.serverSideEmit PropertyRouted.socket_io_adapter_MessageType
             sample_emitter [JStr "hello"; JStr "world"] empty_world)
  = [JObj [("body",
            JSON_stringify
              (JObj [("uid", JStr "emitter"); ("type", JNum 9);
                     ("data", JObj [("packet", JArr [JStr "hello"; JStr "world"])]);
                     ("nsp", JStr "/")]));
           ("contentType", JStr "application/octet-stream");
           ("applicationProperties",
            JObj [("nsp", JStr "/"); ("uid", JStr "emitter")])]].
Proof.
  split.
  - destruct (serverSideEmit_ack_check JSON_stringify
                PropertyRouted.socket_io_adapter_MessageType
                (Some (EmitterOptions.mk None (Some json_parser))) None
                [JStr "hello"; JFun 0] empty_world) as (_ & Hthrow & _).
    apply (Hthrow eq_refl).
  - destruct (serverSideEmit_ack_check JSON_stringify
                PropertyRouted.socket_io_adapter_MessageType
                (Some (EmitterOptions.mk None (Some json_parser))) None
                [JStr "hello"; JStr "world"] empty_world) as (_ & _ & Hsend & _).
    destruct (Hsend eq_refl) as (Hs & Hp).
    unfold sent_by, sample_emitter. rewrite Hs, Hp. split; reflexivity.
Defined.

(** ** Every terminal call, uniformly *)

Lemma Subject_call_run (op : BroadcastOperator) (t : Terminal) (c : Criteria) (w : World) :
  holds w op c →
  reserved t = false →
  SubjectRouted.call op t w
  = (Normal (returned t),
     mkWorld (sets w) (objs w)
       (sent w ++
        [SubjectRouted.service_bus_message
           (Subject_channel (broadcastOptions op) c t)
           (Subject_body (BroadcastOptions.parser (broadcastOptions op)) t
              (Subject_message (broadcastOptions op) c t))])).
Proof.
  intros Hh Hres.
  destruct t as [ev args | target | target | close]; simpl in *; unfold bind.
  - rewrite (Subject_emit_run _ _ _ _ _ Hh Hres). reflexivity.
  - rewrite (Subject_socketsJoin_run _ _ _ _ Hh). reflexivity.
  - rewrite (Subject_socketsLeave_run _ _ _ _ Hh). reflexivity.
  - rewrite (Subject_disconnectSockets_run _ _ _ _ Hh). reflexivity.
Qed.

Lemma Property_call_run (MessageType : PropertyRouted.MessageKind → Z)
    (op : BroadcastOperator) (t : Terminal) (c : Criteria) (w : World) :
  holds w op c →
  reserved t = false →
  PropertyRouted.call MessageType op t w
  = (Normal (returned t),
     mkWorld (sets w) (objs w)
       (sent w ++
        [PropertyRouted.operator_message (BroadcastOptions.nsp (broadcastOptions op))
           (encode (BroadcastOptions.parser (broadcastOptions op))
              (Property_message MessageType (broadcastOptions op) c t))])).
Proof.
  intros Hh Hres.
  destruct t as [ev args | target | target | close]; simpl in *; unfold bind.
  - rewrite (Property_emit_run _ _ _ _ _ _ Hh Hres). reflexivity.
  - rewrite (Property_socketsJoin_run _ _ _ _ _ Hh). reflexivity.
  - rewrite (Property_socketsLeave_run _ _ _ _ _ Hh). reflexivity.
  - rewrite (Property_disconnectSockets_run _ _ _ _ _ Hh). reflexivity.
Qed.

(** The parser is handed from builder to builder untouched. *)
Lemma refine_with_parser (p : Parser) (op : BroadcastOperator) (r : Refinement)
    (c : Criteria) (w : World) :
  holds w op c →
  ∃ op' w',
    refine op r w = (Normal op', w') ∧
    refine (with_parser p op) r w = (Normal (with_parser p op'), w').
Proof.
  intros (Hr & He & Hf).
  destruct r as [room | room | room | b |]; simpl; unfold in_.
  - rewrite (to_run op _ _ _ Hr), (to_run (with_parser p op) _ _ _ Hr). eauto.
  - rewrite (to_run op _ _ _ Hr), (to_run (with_parser p op) _ _ _ Hr). eauto.
  - rewrite (except_run op _ _ _ He), (except_run (with_parser p op) _ _ _ He). eauto.
  - rewrite (compress_run op _ _ _ Hf), (compress_run (with_parser p op) _ _ _ Hf). eauto.
  - rewrite (volatile_run op _ _ Hf), (volatile_run (with_parser p op) _ _ Hf). eauto.
Qed.

Lemma call_reserved (MessageType : PropertyRouted.MessageKind → Z)
    (op : BroadcastOperator) (t : Terminal) (w : World) :
  reserved t = true →
  ∃ ev args,
    t = Emit ev args ∧
    SubjectRouted.call op t w = (Throw (reserved_event_error ev), w) ∧
    PropertyRouted.call MessageType op t w = (Throw (reserved_event_error ev), w).
Proof.
  destruct t as [ev args | target | target | close]; simpl; try discriminate.
  intros Hev. exists ev, args. unfold bind.
  rewrite Subject_emit_reserved, Property_emit_reserved by exact Hev. auto.
Qed.

Lemma Subject_chain_call (e : Emitter) (rs : list Refinement) (t : Terminal) (w : World) :
  reserved t = false →
  let c := fold_left refined rs no_criteria in
  let bo := emitterBroadcastOptions e in
  fst ((op <- Emitter_chain e rs ;; SubjectRouted.call op t) w) = Normal (returned t) ∧
  sent_by ((op <- Emitter_chain e rs ;; SubjectRouted.call op t) w)
  = sent w ++
    [SubjectRouted.service_bus_message (Subject_channel bo c t)
       (Subject_body (BroadcastOptions.parser bo) t (Subject_message bo c t))].
Proof.
  intros Hres c bo.
  destruct (Emitter_chain_run e rs w) as (op & w' & Hrun & Hh & Hx & Hbo).
  unfold sent_by, bind at 1 2. rewrite Hrun.
  rewrite (Subject_call_run _ _ _ _ Hh Hres). simpl.
  destruct Hx as (_ & _ & Hsent). rewrite Hsent, Hbo. auto.
Qed.

Lemma Property_chain_call (MessageType : PropertyRouted.MessageKind → Z) (e : Emitter)
    (rs : list Refinement) (t : Terminal) (w : World) :
  reserved t = false →
  let c := fold_left refined rs no_criteria in
  let bo := emitterBroadcastOptions e in
  fst ((op <- Emitter_chain e rs ;; PropertyRouted.call MessageType op t) w)
  = Normal (returned t) ∧
  sent_by ((op <- Emitter_chain e rs ;; PropertyRouted.call MessageType op t) w)
  = sent w ++
    [PropertyRouted.operator_message (BroadcastOptions.nsp bo)
       (encode (BroadcastOptions.parser bo) (Property_message MessageType bo c t))].
Proof.
  intros Hres c bo.
  destruct (Emitter_chain_run e rs w) as (op & w' & Hrun & Hh & Hx & Hbo).
  unfold sent_by, bind at 1 2. rewrite Hrun.
  rewrite (Property_call_run _ _ _ _ _ Hh Hres). simpl.
  destruct Hx as (_ & _ & Hsent). rewrite Hsent, Hbo. auto.
Qed.

Lemma NoDup_refined_rooms (rs : list Refinement) (c : Criteria) :
  NoDup (c_rooms c) → NoDup (c_rooms (fold_left refined rs c)).
Proof.
  revert c. induction rs as [| r rs IH]; intros c Hnd; simpl; [exact Hnd |].
  apply IH. destruct r; simpl; try exact Hnd; apply NoDup_add_all, Hnd.
Qed.

(** ** The parser *)

(** C8, as stated, fails in the subject-routed dialect: with a custom parser
    configured, [emit] sends what the parser returns, but [socketsJoin]
    sends a [JSON.stringify] string that the parser does not return for any
    message. *)
Lemma subject_requests_bypass_the_parser :
  let e :=
    new_Emitter JSON_stringify (Some (EmitterOptions.mk None (Some tagging_parser))) None in
  let request :=
    JObj [("type", JNum 2);
          ("opts", JObj [("rooms", JArr []); ("except", JArr [])]);
          ("rooms", JArr [JStr "r1"])] in
  sent_by (SubjectRouted.Emitter_emit e (JStr "hello") [] empty_world)
  = [SubjectRouted.service_bus_message "socket.io#/#"
       (JArr [JStr "tagged";
              JArr [JStr "emitter";
                    JObj [("type", JNum 2); ("data", JArr [JStr "hello"]);
                          ("nsp", JStr "/")];
                    JObj [("rooms", JArr []); ("flags", JObj []); ("except", JArr [])]]])] ∧
  sent_by (SubjectRouted.Emitter_socketsJoin e (Room "r1") empty_world)
  = [SubjectRouted.service_bus_message "socket.io-request#/#" (JSON_stringify request)] ∧
  (∀ msg, JSON_stringify request ≠ encode tagging_parser msg).
Proof.
  split; [reflexivity |]. split; [reflexivity |].
  intros msg. unfold JSON_stringify. destruct (serialize _); discriminate.
Qed.

(** C8, amended. Builders that differ in the parser only make the same
    refinements on the store, throw the same errors and send messages with
    the same subject or application properties; the parser shows in the
    body alone.  In the property-routed dialect the body of every terminal
    call, [serverSideEmit] included, is the parser's encoding of the
    message.  In the subject-routed dialect that holds for [emit] only:
    [socketsJoin], [socketsLeave], [disconnectSockets] and [serverSideEmit]
    send the [JSON.stringify] string of their request whatever the parser. *)
Theorem parser_shapes_only_the_body
    (msgpackEncode : JsValue → JsValue) (MessageType : PropertyRouted.MessageKind → Z)
    (p : Parser) (op : BroadcastOperator) (t : Terminal) (c : Criteria)
    (k given : option string) (args : list JsValue) (w : World) :
  holds w op c →
  let bo := broadcastOptions op in
  let e := new_Emitter msgpackEncode (Some (EmitterOptions.mk k None)) given in
  let e_p := new_Emitter msgpackEncode (Some (EmitterOptions.mk k (Some p))) given in
  (∀ r, ∃ op' w',
     refine op r w = (Normal op', w') ∧
     refine (with_parser p op) r w = (Normal (with_parser p op'), w')) ∧
  (reserved t = true →
   SubjectRouted.call (with_parser p op) t w = SubjectRouted.call op t w ∧
   PropertyRouted.call MessageType (with_parser p op) t w
   = PropertyRouted.call MessageType op t w ∧
   sent_by (SubjectRouted.call op t w) = sent w ∧
   sent_by (PropertyRouted.call MessageType op t w) = sent w) ∧
  (reserved t = false →
   PropertyRouted.call MessageType (with_parser p op) t w
   = (Normal (returned t),
      mkWorld (sets w) (objs w)
        (sent w ++
         [PropertyRouted.operator_message (BroadcastOptions.nsp bo)
            (encode p (Property_message MessageType bo c t))])) ∧
   SubjectRouted.call (with_parser p op) t w
   = (Normal (returned t),
      mkWorld (sets w) (objs w)
        (sent w ++
         [SubjectRouted.service_bus_message (Subject_channel bo c t)
            (match t with
             | Emit _ _ => encode p (Subject_message bo c t)
             | _ => JSON_stringify (Subject_message bo c t)
             end)]))) ∧
  (withAck args = true →
   SubjectRouted.serverSideEmit e_p args w = (Throw ack_error, w) ∧
   PropertyRouted.serverSideEmit MessageType e_p args w = (Throw ack_error, w)) ∧
  (withAck args = false →
   SubjectRouted.serverSideEmit e_p args w = SubjectRouted.serverSideEmit e args w ∧
   PropertyRouted.serverSideEmit MessageType e_p args w
   = (Normal tt,
      mkWorld (sets w) (objs w)
        (sent w ++
         [PropertyRouted.emitter_message (nsp e)
            (encode p
               (PropertyRouted.server_side_emit_message MessageType (nsp e) args))]))).
Proof.
  intros Hh bo e e_p.
  split; [intros r; apply (refine_with_parser p op r c w Hh) |].
  split; [| split; [| split]].
  - intros Hres.
    destruct (call_reserved MessageType op t w Hres) as (ev & a & -> & Hs & Hp).
    destruct (call_reserved MessageType (with_parser p op) (Emit ev a) w Hres)
      as (ev' & a' & Heq & Hs' & Hp').
    inversion Heq; subst ev' a'.
    unfold sent_by. rewrite Hs, Hp, Hs', Hp'. auto.
  - intros Hres. split.
    + rewrite (Property_call_run MessageType (with_parser p op) t c w Hh Hres).
      reflexivity.
    + rewrite (Subject_call_run (with_parser p op) t c w Hh Hres).
      destruct t; reflexivity.
  - intros Hack. unfold SubjectRouted.serverSideEmit, PropertyRouted.serverSideEmit.
    rewrite Hack. auto.
  - intros Hack. unfold SubjectRouted.serverSideEmit, PropertyRouted.serverSideEmit.
    rewrite Hack. split; reflexivity.
Qed.

Lemma parser_shapes_only_the_body_witness :
  sent_by (SubjectRouted.call (with_parser tagging_parser sample_operator)
             (SocketsJoin (Room "r1")) sample_world)
  = [SubjectRouted.service_bus_message "socket.io-request#/#"
       (JSON_stringify
          (JObj [("type", JNum 2);
                 ("opts", JObj [("rooms", JArr [JStr "room1"]); ("except", JArr [])]);
                 ("rooms", JArr [JStr "r1"])]))] ∧
  sent_by (PropertyRouted.call PropertyRouted.socket_io_adapter_MessageType
             (with_parser tagging_parser sample_operator)
             (SocketsJoin (Room "r1")) sample_world)
  = [PropertyRouted.operator_message "/"
       (JArr [JStr "tagged";
              JObj [("uid", JStr "emitter"); ("type", JNum 4);
                    ("data",
                     JObj [("opts",
                            JObj [("rooms", JArr [JStr "room1"]); ("except", JArr []);
                                  ("flags", JObj [])]);
                           ("rooms", JArr [JStr "r1"])]);
                    ("nsp", JStr "/")]])].
Proof.
  destruct (parser_shapes_only_the_body JSON_stringify
              PropertyRouted.socket_io_adapter_MessageType tagging_parser sample_operator
              (SocketsJoin (Room "r1")) sample_criteria None None [] sample_world
              sample_holds) as (_ & _ & Hsend & _).
  destruct (Hsend eq_refl) as (Hp & Hs).
  unfold sent_by. rewrite Hp, Hs. split; reflexivity.
Defined.

(** ** Subjects, origin and namespace *)

Lemma string_append_assoc (a b c : string) : (a +:+ b) +:+ c = a +:+ b +:+ c.
Proof.
  induction a as [| ch a IH]; [reflexivity |].
  change (String ch ((a +:+ b) +:+ c) = String ch (a +:+ b +:+ c)).
  rewrite IH. reflexivity.
Qed.

Lemma string_append_nil_r (a : string) : a +:+ EmptyString = a.
Proof.
  induction a as [| ch a IH]; [reflexivity |].
  change (String ch (a +:+ EmptyString) = String ch a).
  rewrite IH. reflexivity.
Qed.

(** The subject of a broadcast, written out from the key and the namespace. *)
Lemma broadcast_subject_spec (msgpackEncode : JsValue → JsValue)
    (opts : option EmitterOptions.t) (given : option string) (rooms : list string) :
  broadcast_subject (emitterBroadcastOptions (new_Emitter msgpackEncode opts given)) rooms
  = key (assign_defaults msgpackEncode opts) +:+ "#" +:+
    match given with Some n => n | None => "/" end +:+ "#" +:+
    match rooms with
    | [r] => r +:+ "#"
    | _ => EmptyString
    end.
Proof.
  unfold broadcast_subject, new_Emitter; simpl.
  destruct rooms as [| r [| r' rest]];
    rewrite ?string_append_assoc; simpl; rewrite ?string_append_assoc; simpl;
    rewrite ?string_append_nil_r; reflexivity.
Qed.

(** C9, as stated, fails in the subject-routed dialect: what
    [emitter.socketsJoin("r1")] hands to the sender has a body, a content
    type and a subject; the request in the body has no [uid] property, and
    the text [emitter] occurs neither in the body nor in the subject. *)
Lemma subject_socketsJoin_carries_no_origin :
  let request :=
    JObj [("type", JNum 2);
          ("opts", JObj [("rooms", JArr []); ("except", JArr [])]);
          ("rooms", JArr [JStr "r1"])] in
  sent_by (SubjectRouted.Emitter_socketsJoin sample_emitter (Room "r1") empty_world)
  = [JObj [("body", JSON_stringify request);
           ("contentType", JStr "application/octet-stream");
           ("subject", JStr "socket.io-request#/#")]] ∧
  field "uid" request = None ∧
  (∃ body, JSON_stringify request = JStr body ∧ includes body UID = false) ∧
  includes "socket.io-request#/#" UID = false.
Proof.
  intros request. split; [reflexivity |]. split; [reflexivity |]. split.
  - eexists. split; [vm_compute; reflexivity | vm_compute; reflexivity].
  - vm_compute. reflexivity.
Qed.

Example includes_finds_the_uid :
  includes "socket.io#/#emitter#" UID = true ∧ includes "socket.io#/#room1#" UID = false.
Proof. split; vm_compute; reflexivity. Qed.

(** C9, amended. In the property-routed dialect every message (broadcast,
    sockets join, sockets leave, disconnect sockets, server-side emit) has
    the [uid] ["emitter"] and the namespace as its [uid] and [nsp]
    properties, and the namespace is an application property of what is
    sent.  In the subject-routed dialect the namespace is part of the
    subject of every message; a broadcast carries ["emitter"] as its first
    element and the namespace in its packet, a server-side-emit request
    carries the [uid] ["emitter"], and the join, leave and disconnect
    requests carry neither a [uid] nor an [nsp] property. *)
Theorem origin_tag_and_namespace
    (msgpackEncode : JsValue → JsValue) (MessageType : PropertyRouted.MessageKind → Z)
    (opts : option EmitterOptions.t) (given : option string) (rs : list Refinement)
    (t : Terminal) (args : list JsValue) (w : World) :
  reserved t = false →
  withAck args = false →
  let e := new_Emitter msgpackEncode opts given in
  let namespace := match given with Some n => n | None => "/" end in
  let k := key (assign_defaults msgpackEncode opts) in
  let p := parser (assign_defaults msgpackEncode opts) in
  let bo := emitterBroadcastOptions e in
  let c := fold_left refined rs no_criteria in
  (let msg := Property_message MessageType bo c t in
   sent_by ((op <- Emitter_chain e rs ;; PropertyRouted.call MessageType op t) w)
   = sent w ++
     [JObj [("body", encode p msg);
            ("contentType", JStr "application/octet-stream");
            ("applicationProperties", JObj [("nsp", JStr namespace)])]] ∧
   field "uid" msg = Some (JStr "emitter") ∧
   field "nsp" msg = Some (JStr namespace)) ∧
  (let msg := PropertyRouted.server_side_emit_message MessageType namespace args in
   sent_by (PropertyRouted.serverSideEmit MessageType e args w)
   = sent w ++
     [JObj [("body", encode p msg);
            ("contentType", JStr "application/octet-stream");
            ("applicationProperties",
             JObj [("nsp", JStr namespace); ("uid", JStr "emitter")])]] ∧
   field "uid" msg = Some (JStr "emitter") ∧
   field "nsp" msg = Some (JStr namespace)) ∧
  (let msg := Subject_message bo c t in
   sent_by ((op <- Emitter_chain e rs ;; SubjectRouted.call op t) w)
   = sent w ++
     [JObj [("body", Subject_body p t msg);
            ("contentType", JStr "application/octet-stream");
            ("subject", JStr (Subject_channel bo c t))]] ∧
   (∃ rest,
      Subject_channel bo c t
      = k +:+ match t with Emit _ _ => "#" | _ => "-request#" end +:+
        namespace +:+ "#" +:+ rest) ∧
   match t with
   | Emit _ _ =>
       get_in msg [Index 0] = Some (JStr "emitter") ∧
       get_in msg [Index 1; Key "nsp"] = Some (JStr namespace)
   | _ => field "uid" msg = None ∧ field "nsp" msg = None
   end) ∧
  (let msg := SubjectRouted.server_side_emit_request args in
   sent_by (SubjectRouted.serverSideEmit e args w)
   = sent w ++
     [JObj [("body", JSON_stringify msg);
            ("contentType", JStr "application/octet-stream");
            ("subject", JStr (k +:+ "-request#" +:+ namespace +:+ "#"))]] ∧
   field "uid" msg = Some (JStr "emitter") ∧
   field "nsp" msg = None).
Proof.
  intros Hres Hack e namespace k p bo c.
  split; [| split; [| split]].
  - destruct (Property_chain_call MessageType e rs t w Hres) as (_ & ->).
    split; [reflexivity |]. destruct t; split; reflexivity.
  - unfold PropertyRouted.serverSideEmit, sent_by. rewrite Hack.
    split; [reflexivity |]. split; reflexivity.
  - destruct (Subject_chain_call e rs t w Hres) as (_ & ->).
    split; [reflexivity |]. split.
    + destruct t as [ev a | target | target | close]; simpl Subject_channel.
      * unfold bo, e. rewrite broadcast_subject_spec. eexists. reflexivity.
      * exists EmptyString. unfold bo, e, new_Emitter. simpl.
        rewrite string_append_nil_r. reflexivity.
      * exists EmptyString. unfold bo, e, new_Emitter. simpl.
        rewrite string_append_nil_r. reflexivity.
      * exists EmptyString. unfold bo, e, new_Emitter. simpl.
        rewrite string_append_nil_r. reflexivity.
    + destruct t; split; reflexivity.
  - unfold SubjectRouted.serverSideEmit, sent_by. rewrite Hack.
    split; [reflexivity |]. split; reflexivity.
Qed.

Lemma origin_tag_and_namespace_witness :
  sent_by ((op <- Emitter_chain sample_emitter [] ;;
            PropertyRouted.call PropertyRouted.socket_io_adapter_MessageType op
              (SocketsJoin (Room "r1"))) empty_world)
  = [JObj [("body",
            JSON_stringify
              (JObj [("uid", JStr "emitter"); ("type", JNum 4);
                     ("data",
                      JObj [("opts",
                             JObj [("rooms", JArr []); ("except", JArr []);
                                   ("flags", JObj [])]);
                            ("rooms", JArr [JStr "r1"])]);
                     ("nsp", JStr "/")]));
           ("contentType", JStr "application/octet-stream");
           ("applicationProperties", JObj [("nsp", JStr "/")])]].
Proof.
  destruct (origin_tag_and_namespace JSON_stringify
              PropertyRouted.socket_io_adapter_MessageType
              (Some (EmitterOptions.mk None (Some json_parser))) None []
              (SocketsJoin (Room "r1")) [] empty_world eq_refl eq_refl)
    as ((Hs & _) & _).
  unfold sample_emitter. rewrite Hs. reflexivity.
Defined.

(** C10. In the subject-routed dialect [emit] sends on the subject
    [key + "#" + namespace + "#"], followed by [room + "#"] exactly when the
    builder's rooms set has one element: with no room or with several the
    subject ends after the namespace segment.  [socketsJoin],
    [socketsLeave], [disconnectSockets] and [serverSideEmit] send on
    [key + "-request#" + namespace + "#"].  The key is ["socket.io"] unless
    the options give one. *)
Theorem subject_of_each_message
    (msgpackEncode : JsValue → JsValue) (opts : option EmitterOptions.t)
    (given : option string) (rs : list Refinement) (t : Terminal)
    (args : list JsValue) (w : World) :
  let e := new_Emitter msgpackEncode opts given in
  let namespace := match given with Some n => n | None => "/" end in
  let k := key (assign_defaults msgpackEncode opts) in
  let rooms := c_rooms (fold_left refined rs no_criteria) in
  let subject :=
    match t with
    | Emit _ _ =>
        k +:+ "#" +:+ namespace +:+ "#" +:+
        match rooms with
        | [r] => r +:+ "#"
        | _ => EmptyString
        end
    | _ => k +:+ "-request#" +:+ namespace +:+ "#"
    end in
  k = match opts with
      | Some o =>
          match EmitterOptions.key o with
          | Some k' => k'
          | None => "socket.io"
          end
      | None => "socket.io"
      end ∧
  NoDup rooms ∧
  ((∃ r, rooms = [r]) ↔ length rooms = 1) ∧
  (reserved t = false →
   ∃ op w' body,
     Emitter_chain e rs w = (Normal op, w') ∧
     holds w' op (fold_left refined rs no_criteria) ∧
     SubjectRouted.call op t w'
     = (Normal (returned t),
        mkWorld (sets w') (objs w')
          (sent w ++
           [JObj [("body", body);
                  ("contentType", JStr "application/octet-stream");
                  ("subject", JStr subject)]]))) ∧
  (withAck args = false →
   ∃ body,
     SubjectRouted.serverSideEmit e args w
     = (Normal tt,
        mkWorld (sets w) (objs w)
          (sent w ++
           [JObj [("body", body);
                  ("contentType", JStr "application/octet-stream");
                  ("subject", JStr (k +:+ "-request#" +:+ namespace +:+ "#"))]]))).
Proof.
  intros e namespace k rooms subject.
  split; [destruct opts as [[[k' |] pr] |]; reflexivity |].
  split; [apply NoDup_refined_rooms, NoDup_nil_2 |].
  split.
  { split.
    - intros [r ->]. reflexivity.
    - destruct rooms as [| r [| r' rest]]; simpl; intros H; try discriminate. eauto. }
  split.
  - intros Hres.
    destruct (Emitter_chain_run e rs w) as (op & w' & Hrun & Hh & Hx & Hbo).
    assert (Hsub : Subject_channel (emitterBroadcastOptions e)
                     (fold_left refined rs no_criteria) t = subject).
    { unfold subject.
      destruct t as [ev a | target | target | close]; unfold Subject_channel.
      - unfold e. rewrite broadcast_subject_spec. reflexivity.
      - reflexivity.
      - reflexivity.
      - reflexivity. }
    exists op, w'. eexists. split; [exact Hrun |]. split; [exact Hh |].
    rewrite (Subject_call_run _ _ _ _ Hh Hres).
    destruct Hx as (_ & _ & Hsent). rewrite Hsent, Hbo, Hsub. reflexivity.
  - intros Hack. eexists. unfold SubjectRouted.serverSideEmit. rewrite Hack. reflexivity.
Qed.

Lemma subject_of_each_message_witness :
  sent_by ((op <- Emitter_chain sample_emitter [To (Room "room1")] ;;
            SubjectRouted.call op (Emit (JStr "hello") [])) empty_world)
  = [JObj [("body",
            JSON_stringify
              (JArr [JStr "emitter";
                     JObj [("type", JNum 2); ("data", JArr [JStr "hello"]);
                           ("nsp", JStr "/")];
                     JObj [("rooms", JArr [JStr "room1"]); ("flags", JObj []);
                           ("except", JArr [])]]));
           ("contentType", JStr "application/octet-stream");
           ("subject", JStr "socket.io#/#room1#")]] ∧
  ∃ op w' body,
    Emitter_chain sample_emitter [To (Rooms ["room1"; "room2"])] empty_world
    = (Normal op, w') ∧
    sent_by (SubjectRouted.call op (Emit (JStr "hello") []) w')
    = [JObj [("body", body);
             ("contentType", JStr "application/octet-stream");
             ("subject", JStr "socket.io#/#")]].
Proof.
  split; [reflexivity |].
  destruct (subject_of_each_message JSON_stringify
              (Some (EmitterOptions.mk None (Some json_parser))) None
              [To (Rooms ["room1"; "room2"])] (Emit (JStr "hello") []) [] empty_world)
    as (_ & _ & _ & Hsend & _).
  destruct (Hsend eq_refl) as (op & w' & body & Hrun & _ & Hcall).
  exists op, w', body. split; [exact Hrun |].
  unfold sent_by. rewrite Hcall. reflexivity.
Defined.

(** * Further properties of the code *)

(** ** Several terminal calls on one builder *)

Lemma holds_sent (w : World) (op : BroadcastOperator) (c : Criteria) (msgs : list JsValue) :
  holds w op c → holds (mkWorld (sets w) (objs w) msgs) op c.
Proof. intros Hh. exact Hh. Qed.

Lemma Subject_calls_run (ts : list Terminal) (op : BroadcastOperator) (c : Criteria)
    (w : World) :
  holds w op c →
  forallb (fun t => negb (reserved t)) ts = true →
  Subject_calls op ts w
  = (Normal (returned <$> ts),
     mkWorld (sets w) (objs w) (sent w ++ (Subject_sends (broadcastOptions op) c <$> ts))).
Proof.
  revert w. induction ts as [| t ts IH]; intros w Hh Hall; simpl.
  - unfold ret. rewrite app_nil_r. destruct w; reflexivity.
  - apply andb_prop in Hall as [Ht Hts]. apply negb_true_iff in Ht.
    unfold bind at 1. rewrite (Subject_call_run _ _ _ _ Hh Ht).
    unfold bind. rewrite (IH _ (holds_sent _ _ _ _ Hh) Hts). simpl.
    unfold ret. rewrite <- app_assoc. reflexivity.
Qed.

Lemma Property_calls_run (MessageType : PropertyRouted.MessageKind → Z)
    (ts : list Terminal) (op : BroadcastOperator) (c : Criteria) (w : World) :
  holds w op c →
  forallb (fun t => negb (reserved t)) ts = true →
  Property_calls MessageType op ts w
  = (Normal (returned <$> ts),
     mkWorld (sets w) (objs w)
       (sent w ++ (Property_sends MessageType (broadcastOptions op) c <$> ts))).
Proof.
  revert w. induction ts as [| t ts IH]; intros w Hh Hall; simpl.
  - unfold ret. rewrite app_nil_r. destruct w; reflexivity.
  - apply andb_prop in Hall as [Ht Hts]. apply negb_true_iff in Ht.
    unfold bind at 1. rewrite (Property_call_run _ _ _ _ _ Hh Ht).
    unfold bind. rewrite (IH _ (holds_sent _ _ _ _ Hh) Hts). simpl.
    unfold ret. rewrite <- app_assoc. reflexivity.
Qed.

Lemma Subject_calls_throw (before : list Terminal) (op : BroadcastOperator)
    (ev : JsValue) (args : list JsValue) (after : list Terminal) (c : Criteria)
    (w : World) :
  holds w op c →
  forallb (fun t => negb (reserved t)) before = true →
  RESERVED_EVENTS_has ev = true →
  Subject_calls op (before ++ Emit ev args :: after) w
  = (Throw (reserved_event_error ev),
     mkWorld (sets w) (objs w)
       (sent w ++ (Subject_sends (broadcastOptions op) c <$> before))).
Proof.
  revert w. induction before as [| t ts IH]; intros w Hh Hall Hev; simpl.
  - unfold bind. rewrite Subject_emit_reserved by exact Hev.
    rewrite app_nil_r. destruct w; reflexivity.
  - apply andb_prop in Hall as [Ht Hts]. apply negb_true_iff in Ht.
    unfold bind at 1. rewrite (Subject_call_run _ _ _ _ Hh Ht).
    unfold bind. rewrite (IH _ (holds_sent _ _ _ _ Hh) Hts Hev). simpl.
    rewrite <- app_assoc. reflexivity.
Qed.

Lemma Property_calls_throw (MessageType : PropertyRouted.MessageKind → Z)
    (before : list Terminal) (op : BroadcastOperator)
    (ev : JsValue) (args : list JsValue) (after : list Terminal) (c : Criteria)
    (w : World) :
  holds w op c →
  forallb (fun t => negb (reserved t)) before = true →
  RESERVED_EVENTS_has ev = true →
  Property_calls MessageType op (before ++ Emit ev args :: after) w
  = (Throw (reserved_event_error ev),
     mkWorld (sets w) (objs w)
       (sent w ++ (Property_sends MessageType (broadcastOptions op) c <$> before))).
Proof.
  revert w. induction before as [| t ts IH]; intros w Hh Hall Hev; simpl.
  - unfold bind. rewrite Property_emit_reserved by exact Hev.
    rewrite app_nil_r. destruct w; reflexivity.
  - apply andb_prop in Hall as [Ht Hts]. apply negb_true_iff in Ht.
    unfold bind at 1. rewrite (Property_call_run _ _ _ _ _ Hh Ht).
    unfold bind. rewrite (IH _ (holds_sent _ _ _ _ Hh) Hts Hev). simpl.
    rewrite <- app_assoc. reflexivity.
Qed.

(** X1. A builder can be used for any number of terminal calls: the calls
    change no set and no flags object, each call that is not an [emit] of a
    reserved name hands one message to the sender, in call order, and every
    one of these messages is built from the same rooms, except rooms and
    flags.  An [emit] of a reserved name in the sequence throws after the
    messages of the calls before it were sent; nothing of it or of the
    calls after it is sent. *)
Theorem builder_serves_several_terminal_calls
    (MessageType : PropertyRouted.MessageKind → Z)
    (op : BroadcastOperator) (before : list Terminal) (c : Criteria) (w : World) :
  holds w op c →
  forallb (fun t => negb (reserved t)) before = true →
  let bo := broadcastOptions op in
  Subject_calls op before w
  = (Normal (returned <$> before),
     mkWorld (sets w) (objs w) (sent w ++ (Subject_sends bo c <$> before))) ∧
  Property_calls MessageType op before w
  = (Normal (returned <$> before),
     mkWorld (sets w) (objs w) (sent w ++ (Property_sends MessageType bo c <$> before))) ∧
  (∀ ev args after,
     RESERVED_EVENTS_has ev = true →
     Subject_calls op (before ++ Emit ev args :: after) w
     = (Throw (reserved_event_error ev),
        mkWorld (sets w) (objs w) (sent w ++ (Subject_sends bo c <$> before))) ∧
     Property_calls MessageType op (before ++ Emit ev args :: after) w
     = (Throw (reserved_event_error ev),
        mkWorld (sets w) (objs w)
          (sent w ++ (Property_sends MessageType bo c <$> before)))).
Proof.
  intros Hh Hall bo.
  split; [apply Subject_calls_run; assumption |].
  split; [apply Property_calls_run; assumption |].
  intros ev args after Hev. split.
  - apply Subject_calls_throw; assumption.
  - apply Property_calls_throw; assumption.
Qed.

Lemma builder_serves_several_terminal_calls_witness :
  sent_by (Subject_calls sample_operator
             [Emit (JStr "a") []; SocketsLeave (Room "r3"); Emit (JStr "connect") [];
              Emit (JStr "b") []]
             sample_world)
  = [SubjectRouted.service_bus_message "socket.io#/#room1#"
       (JSON_stringify
          (JArr [JStr "emitter";
                 JObj [("type", JNum 2); ("data", JArr [JStr "a"]); ("nsp", JStr "/")];
                 JObj [("rooms", JArr [JStr "room1"]); ("flags", JObj []);
                       ("except", JArr [])]]));
     SubjectRouted.service_bus_message "socket.io-request#/#"
       (JSON_stringify
          (JObj [("type", JNum 3);
                 ("opts", JObj [("rooms", JArr [JStr "room1"]); ("except", JArr [])]);
                 ("rooms", JArr [JStr "r3"])]))].
Proof.
  destruct (builder_serves_several_terminal_calls
              PropertyRouted.socket_io_adapter_MessageType sample_operator
              [Emit (JStr "a") []; SocketsLeave (Room "r3")] sample_criteria sample_world
              sample_holds eq_refl) as (_ & _ & Hthrow).
  destruct (Hthrow (JStr "connect") [] [Emit (JStr "b") []] eq_refl) as (Hs & _).
  unfold sent_by. simpl app in Hs. rewrite Hs. reflexivity.
Defined.

(** ** Chains that mix all refinement calls *)











(** ** Flags *)








Example flags_follow_the_calls :
  fold_left set_flag [Compress true; Volatile; To (Room "a"); Compress false] []
  = [("compress", JBool false); ("volatile", JBool true)].
Proof. reflexivity. Qed.

(** ** [disconnectSockets] *)



(** ** Calls made on the emitter itself *)

Lemma bind_ret_r {A} (m : Run A) (w : World) : (x <- m ;; ret x) w = m w.
Proof. unfold bind, ret. destruct (m w) as [[a | e |] w']; reflexivity. Qed.

Lemma bind_ext {A B} (m : Run A) (k1 k2 : A → Run B) (w : World) :
  (∀ a w', k1 a w' = k2 a w') → bind m k1 w = bind m k2 w.
Proof. intros Hk. unfold bind. destruct (m w) as [[a | e |] w']; auto. Qed.

(** X5. The emitter keeps no targeting state.  Every refinement call on
    the emitter starts a chain from a fresh builder, and every terminal call
    on the emitter, also after any number of builders were derived from it,
    sends its message with no rooms, no except rooms and no flags; an [emit]
    of a reserved event name on the emitter throws the reserved-event error
    and sends nothing. *)
Theorem emitter_calls_start_from_nothing
    (MessageType : PropertyRouted.MessageKind → Z) (e : Emitter)
    (earlier : list Refinement) (r : Refinement) (t : Terminal) (w : World) :
  let bo := emitterBroadcastOptions e in
  let namespace := BroadcastOptions.nsp bo in
  let nothing := JObj [("rooms", JArr []); ("flags", JObj []); ("except", JArr [])] in
  Emitter_refine e r w = Emitter_chain e [r] w ∧
  (∃ op w', Emitter_refine e r w = (Normal op, w') ∧
            holds w' op (refined no_criteria r) ∧ sent w' = sent w) ∧
  (reserved t = false →
   fst ((op <- Emitter_chain e earlier ;; Subject_Emitter_call e t) w)
   = Normal (returned t) ∧
   sent_by ((op <- Emitter_chain e earlier ;; Subject_Emitter_call e t) w)
   = sent w ++ [Subject_sends bo no_criteria t] ∧
   fst ((op <- Emitter_chain e earlier ;; Property_Emitter_call MessageType e t) w)
   = Normal (returned t) ∧
   sent_by ((op <- Emitter_chain e earlier ;; Property_Emitter_call MessageType e t) w)
   = sent w ++ [Property_sends MessageType bo no_criteria t]) ∧
  (∀ ev args,
     Subject_sends bo no_criteria (Emit ev args)
     = JObj [("body",
              encode (BroadcastOptions.parser bo)
                (JArr [JStr "emitter";
                       JObj [("type", JNum 2); ("data", JArr (ev :: args));
                             ("nsp", JStr namespace)];
                       nothing]));
             ("contentType", JStr "application/octet-stream");
             ("subject", JStr (BroadcastOptions.broadcastChannel bo))] ∧
     Property_sends MessageType bo no_criteria (Emit ev args)
     = JObj [("body",
              encode (BroadcastOptions.parser bo)
                (JObj [("uid", JStr "emitter");
                       ("type", JNum (MessageType PropertyRouted.BROADCAST));
                       ("data",
                        JObj [("packet",
                               JObj [("type", JNum 2); ("data", JArr (ev :: args));
                                     ("nsp", JStr namespace)]);
                              ("opts", nothing)]);
                       ("nsp", JStr namespace)]));
             ("contentType", JStr "application/octet-stream");
             ("applicationProperties", JObj [("nsp", JStr namespace)])]) ∧
  (∀ target,
     Subject_sends bo no_criteria (SocketsJoin target)
     = JObj [("body",
              JSON_stringify
                (JObj [("type", JNum 2);
                       ("opts", JObj [("rooms", JArr []); ("except", JArr [])]);
                       ("rooms", JArr (JStr <$> listify target))]));
             ("contentType", JStr "application/octet-stream");
             ("subject", JStr (BroadcastOptions.requestChannel bo))] ∧
     Property_sends MessageType bo no_criteria (SocketsJoin target)
     = JObj [("body",
              encode (BroadcastOptions.parser bo)
                (JObj [("uid", JStr "emitter");
                       ("type", JNum (MessageType PropertyRouted.SOCKETS_JOIN));
                       ("data",
                        JObj [("opts",
                               JObj [("rooms", JArr []); ("except", JArr []);
                                     ("flags", JObj [])]);
                              ("rooms", JArr (JStr <$> listify target))]);
                       ("nsp", JStr namespace)]));
             ("contentType", JStr "application/octet-stream");
             ("applicationProperties", JObj [("nsp", JStr namespace)])]) ∧
  (∀ target,
     Subject_sends bo no_criteria (SocketsLeave target)
     = JObj [("body",
              JSON_stringify
                (JObj [("type", JNum 3);
                       ("opts", JObj [("rooms", JArr []); ("except", JArr [])]);
                       ("rooms", JArr (JStr <$> listify target))]));
             ("contentType", JStr "application/octet-stream");
             ("subject", JStr (BroadcastOptions.requestChannel bo))] ∧
     Property_sends MessageType bo no_criteria (SocketsLeave target)
     = JObj [("body",
              encode (BroadcastOptions.parser bo)
                (JObj [("uid", JStr "emitter");
                       ("type", JNum (MessageType PropertyRouted.SOCKETS_LEAVE));
                       ("data",
                        JObj [("opts",
                               JObj [("rooms", JArr []); ("except", JArr []);
                                     ("flags", JObj [])]);
                              ("rooms", JArr (JStr <$> listify target))]);
                       ("nsp", JStr namespace)]));
             ("contentType", JStr "application/octet-stream");
             ("applicationProperties", JObj [("nsp", JStr namespace)])]) ∧
  (∀ close,
     Subject_sends bo no_criteria (DisconnectSockets close)
     = JObj [("body",
              JSON_stringify
                (JObj [("type", JNum 4);
                       ("opts", JObj [("rooms", JArr []); ("except", JArr [])]);
                       ("close", JBool match close with Some b => b | None => false end)]));
             ("contentType", JStr "application/octet-stream");
             ("subject", JStr (BroadcastOptions.requestChannel bo))] ∧
     Property_sends MessageType bo no_criteria (DisconnectSockets close)
     = JObj [("body",
              encode (BroadcastOptions.parser bo)
                (JObj [("uid", JStr "emitter");
                       ("type", JNum (MessageType PropertyRouted.DISCONNECT_SOCKETS));
                       ("data",
                        JObj [("opts",
                               JObj [("rooms", JArr []); ("except", JArr []);
                                     ("flags", JObj [])]);
                              ("close",
                               JBool match close with Some b => b | None => false end)]);
                       ("nsp", JStr namespace)]));
             ("contentType", JStr "application/octet-stream");
             ("applicationProperties", JObj [("nsp", JStr namespace)])]) ∧
  (reserved t = true →
   ∃ ev args,
     t = Emit ev args ∧
     fst ((op <- Emitter_chain e earlier ;; Subject_Emitter_call e t) w)
     = Throw (reserved_event_error ev) ∧
     sent_by ((op <- Emitter_chain e earlier ;; Subject_Emitter_call e t) w) = sent w ∧
     fst ((op <- Emitter_chain e earlier ;; Property_Emitter_call MessageType e t) w)
     = Throw (reserved_event_error ev) ∧
     sent_by ((op <- Emitter_chain e earlier ;; Property_Emitter_call MessageType e t) w)
     = sent w).
Proof.
  intros bo namespace nothing.
  assert (Hone : Emitter_refine e r w = Emitter_chain e [r] w).
  { unfold Emitter_chain.
    destruct r; cbn [Emitter_refine chain refine];
      unfold Emitter_to, Emitter_in, Emitter_except, Emitter_compress, Emitter_volatile;
      apply bind_ext; intros op w0; symmetry; apply bind_ret_r. }
  split; [exact Hone |]. split.
  { rewrite Hone. destruct (Emitter_chain_run e [r] w) as (op & w' & Hrun & Hh & Hx & _).
    exists op, w'. split; [exact Hrun |]. split; [exact Hh |]. apply Hx. }
  destruct (Emitter_chain_run e earlier w) as (op0 & w0 & Hrun0 & _ & Hx0 & _).
  destruct Hx0 as (_ & _ & Hsent0).
  destruct (Emitter_chain_run e [] w0) as (op1 & w1 & Hrun1 & Hh1 & Hx1 & Hbo1).
  destruct Hx1 as (_ & _ & Hsent1). simpl in Hh1.
  unfold Emitter_chain in Hrun1. simpl chain in Hrun1.
  assert (Hnew : new_BroadcastOperator (emitterBroadcastOptions e) w0 = (Normal op1, w1)).
  { rewrite <- Hrun1. symmetry. apply bind_ret_r. }
  assert (Hs : Subject_Emitter_call e t w0 = SubjectRouted.call op1 t w1).
  { destruct t; simpl;
      unfold SubjectRouted.Emitter_emit, SubjectRouted.Emitter_socketsJoin,
        SubjectRouted.Emitter_socketsLeave, SubjectRouted.Emitter_disconnectSockets;
      unfold bind at 1 2; rewrite Hnew; reflexivity. }
  assert (Hp : Property_Emitter_call MessageType e t w0
               = PropertyRouted.call MessageType op1 t w1).
  { destruct t; simpl;
      unfold PropertyRouted.Emitter_emit, PropertyRouted.Emitter_socketsJoin,
        PropertyRouted.Emitter_socketsLeave, PropertyRouted.Emitter_disconnectSockets;
      unfold bind at 1 2; rewrite Hnew; reflexivity. }
  assert (Hrs : ((op <- Emitter_chain e earlier ;; Subject_Emitter_call e t) w)
                = SubjectRouted.call op1 t w1).
  { unfold bind at 1. rewrite Hrun0. exact Hs. }
  assert (Hrp : ((op <- Emitter_chain e earlier ;; Property_Emitter_call MessageType e t) w)
                = PropertyRouted.call MessageType op1 t w1).
  { unfold bind at 1. rewrite Hrun0. exact Hp. }
  unfold sent_by. rewrite Hrs, Hrp.
  split; [| split; [| split; [| split; [| split]]]].
  - intros Hres.
    rewrite (Subject_call_run _ _ _ _ Hh1 Hres), (Property_call_run _ _ _ _ _ Hh1 Hres).
    simpl. unfold Subject_sends, Property_sends. rewrite Hsent1, Hsent0, Hbo1. auto.
  - intros ev args. split; reflexivity.
  - intros target. split; reflexivity.
  - intros target. split; reflexivity.
  - intros close. split; reflexivity.
  - intros Hres.
    destruct (call_reserved MessageType op1 t w1 Hres) as (ev & a & Ht & Hs' & Hp').
    exists ev, a. rewrite Hs', Hp'. simpl. rewrite Hsent1, Hsent0. auto.
Qed.

Lemma emitter_calls_start_from_nothing_witness :
  sent_by ((op <- Emitter_chain sample_emitter [To (Room "a"); Volatile] ;;
            Subject_Emitter_call sample_emitter (Emit (JStr "hello") [])) empty_world)
  = [JObj [("body",
            JSON_stringify
              (JArr [JStr "emitter";
                     JObj [("type", JNum 2); ("data", JArr [JStr "hello"]);
                           ("nsp", JStr "/")];
                     JObj [("rooms", JArr []); ("flags", JObj []); ("except", JArr [])]]));
           ("contentType", JStr "application/octet-stream");
           ("subject", JStr "socket.io#/#")]] ∧
  fst ((op <- Emitter_chain sample_emitter [To (Room "a")] ;;
        Subject_Emitter_call sample_emitter (Emit (JStr "disconnect") [])) empty_world)
  = Throw (reserved_event_error (JStr "disconnect")).
Proof.
  destruct (emitter_calls_start_from_nothing PropertyRouted.socket_io_adapter_MessageType
              sample_emitter [To (Room "a"); Volatile] Volatile (Emit (JStr "hello") [])
              empty_world) as (_ & _ & Hsend & _).
  destruct (emitter_calls_start_from_nothing PropertyRouted.socket_io_adapter_MessageType
              sample_emitter [To (Room "a")] Volatile (Emit (JStr "disconnect") [])
              empty_world) as (_ & _ & _ & _ & _ & _ & _ & Hthrow).
  destruct (Hsend eq_refl) as (_ & Hs & _).
  destruct (Hthrow eq_refl) as (ev & args & Ht & Hf & _).
  inversion Ht; subst ev args.
  split; [rewrite Hs; reflexivity | exact Hf].
Defined.

(** ** [of] *)

Lemma assign_defaults_again (msgpackEncode : JsValue → JsValue)
    (opts : option EmitterOptions.t) :
  assign_defaults msgpackEncode
    (Some (as_options (assign_defaults msgpackEncode opts)))
  = assign_defaults msgpackEncode opts.
Proof. destruct opts as [[[k |] [p |]] |]; reflexivity. Qed.

Lemma normalize_nsp_idempotent (name : string) :
  normalize_nsp (normalize_nsp name) = normalize_nsp name.
Proof.
  destruct (normalize_nsp_spec name) as ([rest Hrest] & _ & _).
  rewrite Hrest. reflexivity.
Qed.

(** X6. [of(name)] on an emitter gives exactly the emitter that the
    constructor gives for the same options and the normalised name: the key
    and the parser are kept and both channels are rebuilt for the new
    namespace.  Namespaces do not nest: [of(a).of(b)] is [of(b)].  The empty
    name is normalised to ["/"], and scoping an emitter to its own
    namespace, when that starts with a slash, gives the emitter back. *)
Theorem of_rebinds_the_namespace
    (msgpackEncode : JsValue → JsValue) (options : option EmitterOptions.t)
    (given : option string) (a b : string) :
  let e := new_Emitter msgpackEncode options given in
  let k := key (assign_defaults msgpackEncode options) in
  Emitter_of msgpackEncode e b
  = new_Emitter msgpackEncode options (Some (normalize_nsp b)) ∧
  Emitter_of msgpackEncode (emitter msgpackEncode options) b
  = new_Emitter msgpackEncode options (Some (normalize_nsp b)) ∧
  Emitter_of msgpackEncode (Emitter_of msgpackEncode e a) b = Emitter_of msgpackEncode e b ∧
  opts (Emitter_of msgpackEncode e b) = opts e ∧
  emitterBroadcastOptions (Emitter_of msgpackEncode e b)
  = BroadcastOptions.mk (normalize_nsp b)
      (k +:+ "#" +:+ normalize_nsp b +:+ "#")
      (k +:+ "-request#" +:+ normalize_nsp b +:+ "#")
      (parser (assign_defaults msgpackEncode options)) ∧
  nsp (Emitter_of msgpackEncode e EmptyString) = "/" ∧
  ((∃ rest, nsp e = String "/"%char rest) → Emitter_of msgpackEncode e (nsp e) = e).
Proof.
  intros e k.
  assert (Hof : ∀ g name,
            Emitter_of msgpackEncode (new_Emitter msgpackEncode options g) name
            = new_Emitter msgpackEncode options (Some (normalize_nsp name))).
  { intros g name. unfold Emitter_of, new_Emitter. cbn [opts].
    rewrite assign_defaults_again. reflexivity. }
  split; [apply Hof |]. split; [apply Hof |].
  split; [unfold e; rewrite (Hof given a), !Hof; reflexivity |].
  split; [unfold e; rewrite Hof; reflexivity |].
  split; [unfold e; rewrite Hof; reflexivity |].
  split; [reflexivity |].
  intros [rest Hrest]. unfold e in *. rewrite Hof.
  destruct (normalize_nsp_spec (nsp (new_Emitter msgpackEncode options given)))
    as (_ & Hkeep & _).
  rewrite (Hkeep rest Hrest). unfold new_Emitter. reflexivity.
Qed.

(** ** What a subject tells *)

Lemma string_append_cancel_l (a b c : string) : a +:+ b = a +:+ c → b = c.
Proof.
  induction a as [| ch a IH]; intros H; [exact H |].
  apply IH. change (String ch (a +:+ b) = String ch (a +:+ c)) in H.
  inversion H. reflexivity.
Qed.

Lemma string_append_not_nil (a : string) (ch : ascii) (b : string) :
  a +:+ String ch b ≠ EmptyString.
Proof. destruct a; discriminate. Qed.

Lemma string_append_cancel_hash (a b : string) : a +:+ "#" = b +:+ "#" → a = b.
Proof.
  revert b. induction a as [| ch a IH]; intros [| ch' b] H.
  - reflexivity.
  - change ("#" = String ch' (b +:+ "#")) in H. inversion H as [[Hch Hrest]].
    symmetry in Hrest. exfalso. exact (string_append_not_nil _ _ _ Hrest).
  - change (String ch (a +:+ "#") = "#") in H. inversion H as [[Hch Hrest]].
    exfalso. exact (string_append_not_nil _ _ _ Hrest).
  - change (String ch (a +:+ "#") = String ch' (b +:+ "#")) in H.
    inversion H as [[Hch Hrest]]. rewrite (IH b Hrest). reflexivity.
Qed.

Lemma broadcast_subject_several (bo : BroadcastOptions.t) (several : list string) :
  length several ≠ 1 → broadcast_subject bo several = BroadcastOptions.broadcastChannel bo.
Proof.
  destruct several as [| x [| y rest]]; intros Hlen; try reflexivity.
  exfalso. apply Hlen. reflexivity.
Qed.

(** X7. In the subject-routed dialect, for emitters with the same key:
    the subject of a broadcast is never the subject of a request, whatever
    the namespaces and rooms; within one namespace the subject of a
    broadcast to a single room differs from the subject of a broadcast to
    no or several rooms, and two single rooms with the same subject are the
    same room.  Across namespaces a subject does not tell the room from the
    namespace: a broadcast to the single room [r] in namespace [n] and a
    broadcast to no or several rooms in namespace [n + "#" + r] have the
    same subject. *)
Theorem subjects_tell_messages_apart
    (msgpackEncode : JsValue → JsValue) (options : option EmitterOptions.t)
    (n n' r r' : string) (rooms several : list string) (ev : JsValue)
    (args : list JsValue) (op : BroadcastOperator) (c : Criteria) (w : World) :
  holds w op c →
  RESERVED_EVENTS_has ev = false →
  length several ≠ 1 →
  let on := fun (namespace : string) =>
    emitterBroadcastOptions (new_Emitter msgpackEncode options (Some namespace)) in
  (∃ body,
     sent_by (SubjectRouted.emit op ev args w)
     = sent w ++
       [SubjectRouted.service_bus_message
          (broadcast_subject (broadcastOptions op) (c_rooms c)) body]) ∧
  (∀ t, is_emit t = false →
     ∃ body,
       sent_by (SubjectRouted.call op t w)
       = sent w ++
         [SubjectRouted.service_bus_message
            (BroadcastOptions.requestChannel (broadcastOptions op)) body]) ∧
  broadcast_subject (on n) rooms ≠ BroadcastOptions.requestChannel (on n') ∧
  broadcast_subject (on n) [r] ≠ broadcast_subject (on n) several ∧
  (broadcast_subject (on n) [r] = broadcast_subject (on n) [r'] → r = r') ∧
  broadcast_subject (on n) [r] = broadcast_subject (on (n +:+ "#" +:+ r)) several.
Proof.
  intros Hh Hev Hlen on.
  split.
  { eexists. unfold sent_by. rewrite (Subject_emit_run _ _ _ _ _ Hh Hev). reflexivity. }
  split.
  { intros t Ht. eexists. unfold sent_by.
    rewrite (Subject_call_run op t c w Hh) by (destruct t; [discriminate | | |]; reflexivity).
    destruct t; [discriminate | | |]; reflexivity. }
  split.
  { unfold on. rewrite broadcast_subject_spec. unfold new_Emitter. cbn.
    intros H. apply string_append_cancel_l in H. discriminate H. }
  split.
  { rewrite (broadcast_subject_several _ several Hlen). unfold broadcast_subject.
    intros H.
    rewrite <- (string_append_nil_r (BroadcastOptions.broadcastChannel (on n))) in H at 2.
    apply string_append_cancel_l in H.
    exact (string_append_not_nil _ _ _ H). }
  split.
  { unfold broadcast_subject. intros H.
    apply string_append_cancel_l, string_append_cancel_hash in H. exact H. }
  rewrite (broadcast_subject_several _ several Hlen). unfold on, broadcast_subject, new_Emitter.
  cbn. rewrite !string_append_assoc. cbn. rewrite ?string_append_assoc. reflexivity.
Qed.

Lemma subjects_tell_messages_apart_witness :
  broadcast_subject
    (emitterBroadcastOptions (new_Emitter JSON_stringify None (Some "/a"))) ["b"]
  = "socket.io#/a#b#" ∧
  broadcast_subject
    (emitterBroadcastOptions (new_Emitter JSON_stringify None (Some "/a#b"))) []
  = "socket.io#/a#b#".
Proof.
  destruct (subjects_tell_messages_apart JSON_stringify None "/a" "/" "b" "c" [] []
              (JStr "hello") [] sample_operator sample_criteria sample_world
              sample_holds eq_refl) as (_ & _ & _ & _ & _ & Hsame).
  - discriminate.
  - split; [reflexivity |]. exact (eq_trans (eq_sym Hsame) eq_refl).
Defined.

(** ** The two dialects side by side *)

(** X8. From the same builder the two dialects send the same content in
    different envelopes.  For [emit] the packet (type, event name followed
    by the arguments, namespace) and the options (rooms, flags, except
    rooms) inside the property-routed cluster message are the second and
    third element of the subject-routed message.  For [socketsJoin] and
    [socketsLeave] the target rooms agree, for [disconnectSockets] the
    [close] flag, and for all three the rooms and except rooms of the
    criteria; the property-routed criteria have the flags in addition. *)
Theorem dialects_agree_on_content
    (MessageType : PropertyRouted.MessageKind → Z)
    (op : BroadcastOperator) (t : Terminal) (c : Criteria) (w : World) :
  holds w op c →
  reserved t = false →
  let bo := broadcastOptions op in
  let s := Subject_message bo c t in
  let p := Property_message MessageType bo c t in
  let same := fun (in_subject in_property : list Step) (v : JsValue) =>
    get_in s in_subject = Some v ∧ get_in p in_property = Some v in
  let criteria :=
    same [Key "opts"; Key "rooms"] [Key "data"; Key "opts"; Key "rooms"]
      (string_array (c_rooms c)) ∧
    same [Key "opts"; Key "except"] [Key "data"; Key "opts"; Key "except"]
      (string_array (c_except c)) ∧
    get_in s [Key "opts"; Key "flags"] = None ∧
    get_in p [Key "data"; Key "opts"; Key "flags"] = Some (JObj (c_flags c)) in
  SubjectRouted.call op t w
  = (Normal (returned t),
     mkWorld (sets w) (objs w)
       (sent w ++
        [SubjectRouted.service_bus_message (Subject_channel bo c t)
           (Subject_body (BroadcastOptions.parser bo) t s)])) ∧
  PropertyRouted.call MessageType op t w
  = (Normal (returned t),
     mkWorld (sets w) (objs w)
       (sent w ++
        [PropertyRouted.operator_message (BroadcastOptions.nsp bo)
           (encode (BroadcastOptions.parser bo) p)])) ∧
  match t with
  | Emit ev args =>
      same [Index 1] [Key "data"; Key "packet"]
        (JObj [("type", JNum PacketType_EVENT); ("data", JArr (ev :: args));
               ("nsp", JStr (BroadcastOptions.nsp bo))]) ∧
      same [Index 2] [Key "data"; Key "opts"]
        (JObj [("rooms", string_array (c_rooms c)); ("flags", JObj (c_flags c));
               ("except", string_array (c_except c))])
  | SocketsJoin target =>
      same [Key "rooms"] [Key "data"; Key "rooms"] (string_array (listify target)) ∧
      criteria
  | SocketsLeave target =>
      same [Key "rooms"] [Key "data"; Key "rooms"] (string_array (listify target)) ∧
      criteria
  | DisconnectSockets close =>
      same [Key "close"] [Key "data"; Key "close"]
        (JBool match close with Some b => b | None => false end) ∧
      criteria
  end.
Proof.
  intros Hh Hres bo s p same criteria.
  split; [apply Subject_call_run; assumption |].
  split; [apply Property_call_run; assumption |].
  destruct t as [ev args | target | target | close];
    unfold criteria, same; repeat split.
Qed.

Lemma dialects_agree_on_content_witness :
  get_in (Subject_message sample_options sample_criteria (Emit (JStr "hello") [JNum 1]))
    [Index 1]
  = get_in
      (Property_message PropertyRouted.socket_io_adapter_MessageType sample_options
         sample_criteria (Emit (JStr "hello") [JNum 1]))
      [Key "data"; Key "packet"] ∧
  get_in (Subject_message sample_options sample_criteria (Emit (JStr "hello") [JNum 1]))
    [Index 1]
  = Some (JObj [("type", JNum 2); ("data", JArr [JStr "hello"; JNum 1]);
                ("nsp", JStr "/")]).
Proof.
  destruct (dialects_agree_on_content PropertyRouted.socket_io_adapter_MessageType
              sample_operator (Emit (JStr "hello") [JNum 1]) sample_criteria sample_world
              sample_holds eq_refl) as (_ & _ & (Hs & Hp) & _).
  split; [| exact Hs].
  change (broadcastOptions sample_operator) with sample_options in Hs, Hp.
  rewrite Hs, Hp. reflexivity.
Defined.

(** ** What a refinement call copies *)


